(** * Mastery scoring and recommendation engine: a shallow embedding

    The development follows [app/utils/recommendation.py]
    ([calculate_skill_scores], [generate_recommendations] and the three
    static tables), the keyword matcher behind [/api/chat], and the
    tables of [app/models.py] with the routes of [app/routes/api.py] as
    transitions of a database state.

    Python integers are [Z]; Python floats are binary64 values of
    [SpecFloat]; dictionaries are association lists in insertion order;
    exceptions are the [Err] branch of a small error monad. *)

From Stdlib Require Import ZArith List String Ascii Bool Lia.
From Stdlib Require Import Permutation Sorted.
From Stdlib Require Import Floats.SpecFloat.
Import ListNotations.

Open Scope Z_scope.

(** ** The Python runtime, as far as the engine uses it *)

Module Py.

Inductive py_error : Type :=
| ZeroDivisionError
| OverflowError
| ValueError
| KeyError.

Inductive result (A : Type) : Type :=
| Ok (a : A)
| Err (e : py_error).

Arguments Ok {A} a.
Arguments Err {A} e.

Definition bind {A B : Type} (r : result A) (k : A -> result B) : result B :=
  match r with
  | Ok a => k a
  | Err e => Err e
  end.

Notation "x <- r ;; k" := (bind r (fun x => k))
  (at level 61, r at next level, right associativity).

(** *** dict: association list, insertion ordered, keys compared with [==] *)

Definition dict (V : Type) : Type := list (string * V).

Fixpoint dict_get {V : Type} (d : dict V) (k : string) : option V :=
  match d with
  | [] => None
  | (k', v) :: d' => if String.eqb k k' then Some v else dict_get d' k
  end.

(** [d.get(k, default)] *)
Definition dict_get_default {V : Type} (d : dict V) (k : string) (default : V) : V :=
  match dict_get d k with
  | Some v => v
  | None => default
  end.

(** [d[k]] *)
Definition dict_getitem {V : Type} (d : dict V) (k : string) : result V :=
  match dict_get d k with
  | Some v => Ok v
  | None => Err KeyError
  end.

(** [k in d] *)
Definition dict_contains {V : Type} (d : dict V) (k : string) : bool :=
  match dict_get d k with
  | Some _ => true
  | None => false
  end.

(** [d[k] = v]: an existing key keeps its position, a new key goes last. *)
Fixpoint dict_setitem {V : Type} (d : dict V) (k : string) (v : V) : dict V :=
  match d with
  | [] => [(k, v)]
  | (k', v') :: d' =>
      if String.eqb k k' then (k', v) :: d' else (k', v') :: dict_setitem d' k v
  end.

Definition dict_keys {V : Type} (d : dict V) : list string := map fst d.

(** *** list operations *)

(** [x in l] on a list of strings *)
Definition str_in_list (x : string) (l : list string) : bool :=
  existsb (String.eqb x) l.

(** [x in l] on a list of ints *)
Definition int_in_list (x : Z) (l : list Z) : bool :=
  existsb (Z.eqb x) l.

(** [l.count(x)] *)
Fixpoint list_count (l : list string) (x : string) : Z :=
  match l with
  | [] => 0
  | y :: l' => (if String.eqb y x then 1 else 0) + list_count l' x
  end.

(** [sum(1 for x in l if p(x))] *)
Fixpoint sum_ones_if {A : Type} (p : A -> bool) (l : list A) : Z :=
  match l with
  | [] => 0
  | x :: l' => (if p x then 1 else 0) + sum_ones_if p l'
  end.

(** [l[:n]]: a negative bound counts from the end. *)
Definition slice_to {A : Type} (l : list A) (n : Z) : list A :=
  if 0 <=? n then firstn (Z.to_nat n) l
  else firstn (Z.to_nat (Z.of_nat (List.length l) + n)) l.

(** [sorted(l, key=...)] is stable: equal keys keep their input order.
    The embedding is the stable insertion sort on an integer key. *)
Section Sorted.
Context {A : Type} (key : A -> Z).

Fixpoint insert_by_key (x : A) (l : list A) : list A :=
  match l with
  | [] => [x]
  | y :: l' => if key x <=? key y then x :: l else y :: insert_by_key x l'
  end.

Fixpoint sorted_by_key (l : list A) : list A :=
  match l with
  | [] => []
  | x :: l' => insert_by_key x (sorted_by_key l')
  end.
End Sorted.

(** *** float: IEEE 754 binary64 *)

Definition prec : Z := 53.
Definition emax : Z := 1024.

(** An integer operand of a correctly rounded operation, held exactly. *)
Definition exact_int (z : Z) : spec_float :=
  match z with
  | Z0 => S754_zero false
  | Zpos p => S754_finite false p 0
  | Zneg p => S754_finite true p 0
  end.

(** [a / b] on two ints: the correctly rounded quotient; a zero divisor
    and a quotient beyond the largest double raise. *)
Definition int_truediv (a b : Z) : result spec_float :=
  if b =? 0 then Err ZeroDivisionError
  else match SFdiv prec emax (exact_int a) (exact_int b) with
       | S754_infinity _ => Err OverflowError
       | q => Ok q
       end.

(** [float(z)], the conversion applied to an int operand of a float. *)
Definition float_of_int (z : Z) : result spec_float :=
  match binary_normalize prec emax z 0 false with
  | S754_infinity _ => Err OverflowError
  | x => Ok x
  end.

(** [x * z] with [x] a float and [z] an int; the product itself may be
    an infinity without raising. *)
Definition float_mul_int (x : spec_float) (z : Z) : result spec_float :=
  y <- float_of_int z ;;
  Ok (SFmul prec emax x y).

(** Nearest integer to [m * 2^e], ties to the even one. *)
Definition round_half_even (m e : Z) : Z :=
  if 0 <=? e then m * 2 ^ e
  else
    let d := 2 ^ (- e) in
    let q := m / d in
    let r := m mod d in
    match 2 * r ?= d with
    | Lt => q
    | Gt => q + 1
    | Eq => if Z.even q then q else q + 1
    end.

(** [round(x)] with one argument: an int, ties to even; infinities and
    NaN raise. *)
Definition float_round (x : spec_float) : result Z :=
  match x with
  | S754_zero _ => Ok 0
  | S754_infinity _ => Err OverflowError
  | S754_nan => Err ValueError
  | S754_finite s m e => Ok (cond_Zopp s (round_half_even (Zpos m) e))
  end.

End Py.

Import Py.

(** ** [app/utils/recommendation.py] *)

Module Recommendation.

Open Scope string_scope.

(** The ASCII double quote that two advice texts contain. *)
Definition dquote : string := String (ascii_of_nat 34) EmptyString.

(** Topic name -> the code lines that belong to it. *)
Definition KNOWLEDGE_MAP : dict (list Z) :=
  [ ("分治思想", [1; 2; 7; 8]%Z);
    ("基准选择", [11; 12; 20; 21]%Z);
    ("分区操作", [4; 10; 13; 14; 15; 16; 17; 18; 19; 22]%Z);
    ("递归调用", [3; 5; 6]%Z);
    ("复杂度分析", []) ].

(** Topic name -> the follow-up resource of the knowledge graph. *)
Definition KNOWLEDGE_GRAPH_RESOURCES : dict (dict string) :=
  [ ("分治思想",
      [ ("next", "归并排序");
        ("difficulty", "medium");
        ("tip", "理解分治后，可以学习同样基于分治的归并排序") ]);
    ("基准选择",
      [ ("next", "随机化快排");
        ("difficulty", "medium");
        ("tip", "掌握基准选择后，尝试实现随机化版本") ]);
    ("分区操作",
      [ ("next", "Hoare分区法");
        ("difficulty", "hard");
        ("tip", "掌握Lomuto分区后，可以学习更高效的Hoare分区") ]);
    ("递归调用",
      [ ("next", "尾递归优化");
        ("difficulty", "hard");
        ("tip", "理解递归后，学习如何用尾递归优化减少栈空间") ]);
    ("复杂度分析",
      [ ("next", "主定理");
        ("difficulty", "hard");
        ("tip", "深入学习主定理(Master Theorem)来分析递归算法复杂度") ]) ].

(** Topic name -> advice text. *)
Definition ADVICE_MAP : dict string :=
  [ ("分治思想",
      "建议重新阅读算法思想面板，理解" ++ dquote ++ "分而治之" ++ dquote
      ++ "的核心：先分区，再递归处理子问题。");
    ("基准选择",
      "试着思考：如果选不同的元素作为基准，分区结果会怎样？可以向AI助手提问"
      ++ dquote ++ "基准选择策略" ++ dquote ++ "。");
    ("分区操作",
      "分区是快速排序最关键的步骤。建议用单步模式仔细观察第11-22行代码的执行过程。");
    ("递归调用",
      "递归可能比较抽象。建议关注第5-6行，观察排序是如何被分解为更小的子问题的。");
    ("复杂度分析",
      "试着向AI助手提问" ++ dquote ++ "时间复杂度" ++ dquote ++ "或" ++ dquote
      ++ "最坏情况" ++ dquote ++ "，深入理解快速排序的性能特征。") ].

Open Scope Z_scope.

(** The profile dictionary handed to the scorer.  Each field may be
    absent ([None]); [questions_asked] is carried but never read. *)
Record user_profile_dict : Type := {
  total_steps_viewed : option Z;
  marked_lines : option (list Z);
  questions_asked : option Z;
  question_topics : option (list string);
  completed_runs : option Z
}.

(** [user_profile_dict.get(field, default)] *)
Definition get {A : Type} (field : option A) (default : A) : A :=
  match field with
  | Some v => v
  | None => default
  end.

(** [min(30, round((total_viewed / max(total_animation_steps, 1)) * 30))] *)
Definition step_bonus_of (total_viewed total_animation_steps : Z) : result Z :=
  ratio <- int_truediv total_viewed (Z.max total_animation_steps 1) ;;
  scaled <- float_mul_int ratio 30 ;;
  rounded <- float_round scaled ;;
  Ok (Z.min 30 rounded).

(** The body of the loop over [KNOWLEDGE_MAP.items()]: the value of the
    variable [score] when it reaches the clamp. *)
Definition topic_raw_score (base_score step_bonus complete_bonus : Z)
    (marked_lines : list Z) (question_topics : list string)
    (knowledge : string) (lines : list Z) : Z :=
  let score := base_score + step_bonus + complete_bonus in
  let score :=
    if str_in_list knowledge question_topics then score + 15 else score in
  let marked_count := sum_ones_if (fun ln => int_in_list ln lines) marked_lines in
  let score := score - marked_count * 10 in
  if String.eqb knowledge "复杂度分析"
  then
    let complexity_q_count := list_count question_topics "复杂度分析" in
    score + complexity_q_count * 10
  else score.

(** [max(0, min(100, score))] *)
Definition clamp (score : Z) : Z := Z.max 0 (Z.min 100 score).

(** The value stored as [scores[knowledge]]. *)
Definition topic_score (base_score step_bonus complete_bonus : Z)
    (marked_lines : list Z) (question_topics : list string)
    (knowledge : string) (lines : list Z) : Z :=
  clamp (topic_raw_score base_score step_bonus complete_bonus
           marked_lines question_topics knowledge lines).

Definition calculate_skill_scores (p : user_profile_dict)
    (total_animation_steps : Z) : result (dict Z) :=
  let scores : dict Z := [] in
  let total_viewed := get (total_steps_viewed p) 0 in
  let base_score := if total_viewed >? 0 then 10 else 0 in
  step_bonus <- step_bonus_of total_viewed total_animation_steps ;;
  let completed := get (completed_runs p) 0 in
  let complete_bonus := Z.min 30 (completed * 15) in
  let marked_lines := get (marked_lines p) [] in
  let question_topics := get (question_topics p) [] in
  Ok (fold_left
        (fun scores '(knowledge, lines) =>
           dict_setitem scores knowledge
             (topic_score base_score step_bonus complete_bonus
                marked_lines question_topics knowledge lines))
        KNOWLEDGE_MAP scores).

(** The default [total_animation_steps=50]. *)
Definition calculate_skill_scores_default (p : user_profile_dict) : result (dict Z) :=
  calculate_skill_scores p 50.

(** A value stored in a recommendation record. *)
Inductive rec_value : Type :=
| VInt (z : Z)
| VStr (s : string).

Open Scope string_scope.

(** The tier chosen by the [if score >= 70 / elif score >= 40 / else]. *)
Definition tag_of (score : Z) : string * string :=
  if (score >=? 70)%Z then ("掌握良好", "easy")
  else if (score >=? 40)%Z then ("需要加强", "medium")
  else ("建议重点学习", "hard").

(** The record built for one [(name, score)] of the sorted prefix. *)
Definition recommendation_of (name : string) (score : Z) : result (dict rec_value) :=
  let '(tag, tag_class) := tag_of score in
  let rec :=
    [ ("knowledge", VStr name);
      ("score", VInt score);
      ("tag", VStr tag);
      ("tag_class", VStr tag_class);
      ("advice", VStr (dict_get_default ADVICE_MAP name EmptyString)) ] in
  if dict_contains KNOWLEDGE_GRAPH_RESOURCES name then
    resource <- dict_getitem KNOWLEDGE_GRAPH_RESOURCES name ;;
    next <- dict_getitem resource "next" ;;
    let rec := dict_setitem rec "next_topic" (VStr next) in
    difficulty <- dict_getitem resource "difficulty" ;;
    let rec := dict_setitem rec "next_difficulty" (VStr difficulty) in
    tip <- dict_getitem resource "tip" ;;
    let rec := dict_setitem rec "next_tip" (VStr tip) in
    Ok rec
  else Ok rec.

(** The loop [for name, score in sorted_scores[:top_n]]: the first
    failing record aborts the call. *)
Fixpoint collect_recommendations (items : list (string * Z))
    : result (list (dict rec_value)) :=
  match items with
  | [] => Ok []
  | (name, score) :: items' =>
      rec <- recommendation_of name score ;;
      recommendations <- collect_recommendations items' ;;
      Ok (rec :: recommendations)
  end.

Definition generate_recommendations (skill_scores : dict Z) (top_n : Z)
    : result (list (dict rec_value)) :=
  let sorted_scores := sorted_by_key snd skill_scores in
  collect_recommendations (slice_to sorted_scores top_n).

(** The default [top_n=5]. *)
Definition generate_recommendations_default (skill_scores : dict Z)
    : result (list (dict rec_value)) :=
  generate_recommendations skill_scores 5.

Close Scope string_scope.

End Recommendation.

Import Recommendation.

(** ** The chat matcher called by [/api/chat] *)

Module ChatEngine.

(** Modelled from the spec: one entry of [QA_KNOWLEDGE_BASE], which lives
    in the absent [app/utils/chat_engine.py]; its three fields are those
    the [/api/knowledge] endpoint documents. *)
Record qa_entry : Type := {
  keywords : list string;
  topic : string;
  answer : string
}.

(** [k in q] on strings: [k] occurs in [q] as a contiguous substring. *)
Fixpoint contains (q k : string) : bool :=
  String.prefix k q ||
  match q with
  | EmptyString => false
  | String _ q' => contains q' k
  end.

(** Modelled from the spec: [app/utils/chat_engine.py] is not among the
    sources, so the overlap of an entry with a question is the number of
    its keywords contained in the question text (substring containment). *)
Definition overlap (question : string) (e : qa_entry) : Z :=
  sum_ones_if (contains question) (keywords e).

(** Modelled from the spec: the scan of [match_answer] over the knowledge
    base, keeping the best entry so far; a later entry replaces it only
    with a strictly higher overlap, so the first entry reaching the
    maximum wins. *)
Fixpoint scan_entries (question : string) (kb : list qa_entry)
    (best_score : Z) (best : option qa_entry) : Z * option qa_entry :=
  match kb with
  | [] => (best_score, best)
  | e :: kb' =>
      let score := overlap question e in
      if score >? best_score
      then scan_entries question kb' score (Some e)
      else scan_entries question kb' best_score best
  end.

(** Modelled from the spec: [match_answer] of the absent
    [app/utils/chat_engine.py], over a knowledge base and a fallback
    answer given as parameters; with no overlap at all it answers the
    fallback with the empty topic. *)
Definition match_answer (QA_KNOWLEDGE_BASE : list qa_entry)
    (fallback_answer : string) (question : string) : string * string :=
  match snd (scan_entries question QA_KNOWLEDGE_BASE 0 None) with
  | Some e => (answer e, topic e)
  | None => (fallback_answer, EmptyString)
  end.

End ChatEngine.

Import ChatEngine.

(** ** [app/models.py] and [app/routes/api.py] *)

(** The JSON bodies of the routes, with the fields and the types that
    each route's docstring documents; a field may be absent. *)
Module Requests.

(** Body of [POST /api/chat]. *)
Record chat_data : Type := {
  question : option string
}.

(** Body of [POST /api/profile]; [other_keys] are the keys the route
    does not read, which still make the body non-empty. *)
Record profile_data : Type := {
  total_steps_viewed : option Z;
  marked_lines : option (list Z);
  completed_runs : option Z;
  other_keys : list string
}.

(** Body of [POST /api/mark]. *)
Record mark_data : Type := {
  line : option Z;
  knowledge : option string;
  note : option string
}.

(** Body of [POST /api/analyze]. *)
Record analyze_data : Type := {
  total_animation_steps : option Z
}.

End Requests.

(** The three tables.  A text column written by [json.dumps] and read by
    [json.loads] only is kept as the value it encodes; the two clock
    columns [created_at] and [updated_at] are left out. *)
Module UserProfile.
Record t : Type := {
  id : Z;
  session_id : string;
  total_steps_viewed : Z;
  marked_lines : list Z;
  questions_asked : Z;
  question_topics : list string;
  completed_runs : Z;
  skill_scores : dict Z
}.
End UserProfile.

Module LearningRecord.
Record t : Type := {
  id : Z;
  user_id : Z;
  action_type : string;
  action_data : Requests.mark_data
}.
End LearningRecord.

Module ChatHistory.
Record t : Type := {
  id : Z;
  user_id : Z;
  question : string;
  answer : string;
  topic : string
}.
End ChatHistory.

Module Api.

(** The database: one list of rows per table, in insertion order. *)
Record db : Type := {
  user_profile : list UserProfile.t;
  learning_record : list LearningRecord.t;
  chat_history : list ChatHistory.t
}.

(** The database after [db.create_all()]. *)
Definition empty_db : db :=
  {| user_profile := []; learning_record := []; chat_history := [] |}.

(** The integer primary key given to a new row: one more than the
    largest key of the table. *)
Definition next_id (ids : list Z) : Z := 1 + fold_right Z.max 0 ids.

(** [UserProfile.query.filter_by(session_id=sid).first()] *)
Definition find_user (sid : string) (users : list UserProfile.t)
    : option UserProfile.t :=
  find (fun u => String.eqb (UserProfile.session_id u) sid) users.

(** [UserProfile(session_id=sid)] once inserted: the column defaults. *)
Definition new_user (uid : Z) (sid : string) : UserProfile.t :=
  {| UserProfile.id := uid;
     UserProfile.session_id := sid;
     UserProfile.total_steps_viewed := 0;
     UserProfile.marked_lines := [];
     UserProfile.questions_asked := 0;
     UserProfile.question_topics := [];
     UserProfile.completed_runs := 0;
     UserProfile.skill_scores := [] |}.

(** [session.get('session_id', 'anonymous')] *)
Definition session_id_of (session : option string) : string :=
  get session "anonymous"%string.

Definition get_or_create_user (session : option string) (st : db)
    : db * UserProfile.t :=
  let sid := session_id_of session in
  match find_user sid (user_profile st) with
  | Some user => (st, user)
  | None =>
      let user := new_user (next_id (map UserProfile.id (user_profile st))) sid in
      ({| user_profile := user_profile st ++ [user];
          learning_record := learning_record st;
          chat_history := chat_history st |}, user)
  end.

(** The [UPDATE] that a commit issues for a changed profile: the row
    with its primary key is replaced. *)
Definition update_user (user : UserProfile.t) (users : list UserProfile.t)
    : list UserProfile.t :=
  map (fun u => if UserProfile.id u =? UserProfile.id user then user else u) users.

(** Truth value of a string: non-empty. *)
Definition str_truthy (s : string) : bool :=
  match s with
  | EmptyString => false
  | String _ _ => true
  end.

(** The JSON answers of the routes. *)
Inductive response : Type :=
| Json400 (error : string)
| JsonChat (answer topic : string)
| JsonProfile (profile : UserProfile.t)
| JsonSuccess
| JsonAnalyze (skill_scores : dict Z) (recommendations : list (dict rec_value))
| JsonKnowledge (knowledge_map : dict (list Z)) (resources : dict (dict string))
    (advice_map : dict string) (qa_knowledge_base : list qa_entry).

Section Routes.

(** The two names that [api.py] imports from the absent
    [app/utils/chat_engine.py]. *)
Variable match_answer : string -> string * string.
Variable QA_KNOWLEDGE_BASE : list qa_entry.

Definition chat (session : option string) (data : option Requests.chat_data)
    (st : db) : db * result response :=
  match data with
  | None => (st, Ok (Json400 "缺少question参数"))
  | Some d =>
      match Requests.question d with
      | None => (st, Ok (Json400 "缺少question参数"))
      | Some question =>
          let '(answer, topic) := match_answer question in
          let '(st, user) := get_or_create_user session st in
          let chat_record :=
            {| ChatHistory.id := next_id (map ChatHistory.id (chat_history st));
               ChatHistory.user_id := UserProfile.id user;
               ChatHistory.question := question;
               ChatHistory.answer := answer;
               ChatHistory.topic := topic |} in
          let questions_asked := UserProfile.questions_asked user + 1 in
          let question_topics :=
            if str_truthy topic
            then UserProfile.question_topics user ++ [topic]
            else UserProfile.question_topics user in
          let user :=
            {| UserProfile.id := UserProfile.id user;
               UserProfile.session_id := UserProfile.session_id user;
               UserProfile.total_steps_viewed := UserProfile.total_steps_viewed user;
               UserProfile.marked_lines := UserProfile.marked_lines user;
               UserProfile.questions_asked := questions_asked;
               UserProfile.question_topics := question_topics;
               UserProfile.completed_runs := UserProfile.completed_runs user;
               UserProfile.skill_scores := UserProfile.skill_scores user |} in
          ({| user_profile := update_user user (user_profile st);
              learning_record := learning_record st;
              chat_history := chat_history st ++ [chat_record] |},
           Ok (JsonChat answer topic))
      end
  end.

Definition get_profile (session : option string) (st : db) : db * result response :=
  let '(st, user) := get_or_create_user session st in
  (st, Ok (JsonProfile user)).

(** [not data] on the body of [POST /api/profile]: no body, or no key. *)
Definition profile_data_falsy (data : option Requests.profile_data) : bool :=
  match data with
  | None => true
  | Some d =>
      match Requests.total_steps_viewed d, Requests.marked_lines d,
            Requests.completed_runs d, Requests.other_keys d with
      | None, None, None, [] => true
      | _, _, _, _ => false
      end
  end.

(** A value that a 64-bit SQLite [INTEGER] column can hold. *)
Definition fits_integer_column (z : Z) : bool :=
  (- 2 ^ 63 <=? z) && (z <=? 2 ^ 63 - 1).

(** The [UPDATE] of [update_profile] binds the integers sent for the two
    [db.Integer] columns; outside the 64-bit range the binding raises
    [OverflowError] and the commit stores nothing. *)
Definition profile_data_storable (d : Requests.profile_data) : bool :=
  match Requests.total_steps_viewed d with
  | Some z => fits_integer_column z
  | None => true
  end &&
  match Requests.completed_runs d with
  | Some z => fits_integer_column z
  | None => true
  end.

Definition update_profile (session : option string)
    (data : option Requests.profile_data) (st : db) : db * result response :=
  match data with
  | None => (st, Ok (Json400 "请求体为空"))
  | Some d =>
      if profile_data_falsy data then (st, Ok (Json400 "请求体为空"))
      else
        let '(st, user) := get_or_create_user session st in
        let user :=
          {| UserProfile.id := UserProfile.id user;
             UserProfile.session_id := UserProfile.session_id user;
             UserProfile.total_steps_viewed :=
               get (Requests.total_steps_viewed d) (UserProfile.total_steps_viewed user);
             UserProfile.marked_lines :=
               get (Requests.marked_lines d) (UserProfile.marked_lines user);
             UserProfile.questions_asked := UserProfile.questions_asked user;
             UserProfile.question_topics := UserProfile.question_topics user;
             UserProfile.completed_runs :=
               get (Requests.completed_runs d) (UserProfile.completed_runs user);
             UserProfile.skill_scores := UserProfile.skill_scores user |} in
        if profile_data_storable d
        then
          ({| user_profile := update_user user (user_profile st);
              learning_record := learning_record st;
              chat_history := chat_history st |},
           Ok JsonSuccess)
        else (st, Err OverflowError)
  end.

Definition save_mark (session : option string) (data : option Requests.mark_data)
    (st : db) : db * result response :=
  match data with
  | None => (st, Ok (Json400 "缺少line参数"))
  | Some d =>
      match Requests.line d with
      | None => (st, Ok (Json400 "缺少line参数"))
      | Some line_num =>
          let '(st, user) := get_or_create_user session st in
          let record :=
            {| LearningRecord.id := next_id (map LearningRecord.id (learning_record st));
               LearningRecord.user_id := UserProfile.id user;
               LearningRecord.action_type := "mark_line";
               LearningRecord.action_data := d |} in
          let marked := UserProfile.marked_lines user in
          let marked :=
            if negb (int_in_list line_num marked) then marked ++ [line_num]
            else marked in
          let user :=
            {| UserProfile.id := UserProfile.id user;
               UserProfile.session_id := UserProfile.session_id user;
               UserProfile.total_steps_viewed := UserProfile.total_steps_viewed user;
               UserProfile.marked_lines := marked;
               UserProfile.questions_asked := UserProfile.questions_asked user;
               UserProfile.question_topics := UserProfile.question_topics user;
               UserProfile.completed_runs := UserProfile.completed_runs user;
               UserProfile.skill_scores := UserProfile.skill_scores user |} in
          ({| user_profile := update_user user (user_profile st);
              learning_record := learning_record st ++ [record];
              chat_history := chat_history st |},
           Ok JsonSuccess)
      end
  end.

(** The dictionary that [analyze] builds from the stored profile. *)
Definition profile_dict (user : UserProfile.t) : user_profile_dict :=
  {| Recommendation.total_steps_viewed := Some (UserProfile.total_steps_viewed user);
     Recommendation.marked_lines := Some (UserProfile.marked_lines user);
     Recommendation.questions_asked := Some (UserProfile.questions_asked user);
     Recommendation.question_topics := Some (UserProfile.question_topics user);
     Recommendation.completed_runs := Some (UserProfile.completed_runs user) |}.

Definition analyze (session : option string) (data : option Requests.analyze_data)
    (st : db) : db * result response :=
  let total_steps :=
    match data with
    | Some d => get (Requests.total_animation_steps d) 50
    | None => 50
    end in
  let '(st, user) := get_or_create_user session st in
  match calculate_skill_scores (profile_dict user) total_steps with
  | Err e => (st, Err e)
  | Ok skill_scores =>
      let user :=
        {| UserProfile.id := UserProfile.id user;
           UserProfile.session_id := UserProfile.session_id user;
           UserProfile.total_steps_viewed := UserProfile.total_steps_viewed user;
           UserProfile.marked_lines := UserProfile.marked_lines user;
           UserProfile.questions_asked := UserProfile.questions_asked user;
           UserProfile.question_topics := UserProfile.question_topics user;
           UserProfile.completed_runs := UserProfile.completed_runs user;
           UserProfile.skill_scores := skill_scores |} in
      let st :=
        {| user_profile := update_user user (user_profile st);
           learning_record := learning_record st;
           chat_history := chat_history st |} in
      match generate_recommendations_default skill_scores with
      | Err e => (st, Err e)
      | Ok recommendations => (st, Ok (JsonAnalyze skill_scores recommendations))
      end
  end.

Definition get_knowledge (st : db) : db * result response :=
  (st, Ok (JsonKnowledge KNOWLEDGE_MAP KNOWLEDGE_GRAPH_RESOURCES ADVICE_MAP
             QA_KNOWLEDGE_BASE)).

(** One request to the blueprint. *)
Inductive request : Type :=
| POST_chat (data : option Requests.chat_data)
| GET_profile
| POST_profile (data : option Requests.profile_data)
| POST_mark (data : option Requests.mark_data)
| POST_analyze (data : option Requests.analyze_data)
| GET_knowledge.

Definition handle (session : option string) (req : request) (st : db)
    : db * result response :=
  match req with
  | POST_chat data => chat session data st
  | GET_profile => get_profile session st
  | POST_profile data => update_profile session data st
  | POST_mark data => save_mark session data st
  | POST_analyze data => analyze session data st
  | GET_knowledge => get_knowledge st
  end.

(** The database after a sequence of requests, each with the session
    id of its cookie. *)
Definition run (trace : list (option string * request)) (st : db) : db :=
  fold_left (fun st sr => fst (handle (fst sr) (snd sr) st)) trace st.

End Routes.

End Api.

(** ** Specification-side definitions *)

(** The tier label as the specification words it: at least 70 is
    proficient, from 40 up to 70 excluded needs reinforcement, below 40
    is priority focus. *)
Definition tier_label_spec (score : Z) (label : string) : Prop :=
  (70 <= score -> label = "掌握良好"%string) /\
  (40 <= score < 70 -> label = "需要加强"%string) /\
  (score < 40 -> label = "建议重点学习"%string).

(** The name of the one topic without code lines. *)
Definition complexity_topic : string := "复杂度分析"%string.

(** The five topic names in table order. *)
Definition topic_names : list string :=
  ["分治思想"; "基准选择"; "分区操作"; "递归调用"; "复杂度分析"]%string.

(** Profiles that differ from [p] in one field only. *)
Definition with_question_topics (p : user_profile_dict) (qs : list string)
    : user_profile_dict :=
  {| total_steps_viewed := total_steps_viewed p;
     marked_lines := marked_lines p;
     questions_asked := questions_asked p;
     question_topics := Some qs;
     completed_runs := completed_runs p |}.

Definition with_marked_lines (p : user_profile_dict) (ml : list Z)
    : user_profile_dict :=
  {| total_steps_viewed := total_steps_viewed p;
     marked_lines := Some ml;
     questions_asked := questions_asked p;
     question_topics := question_topics p;
     completed_runs := completed_runs p |}.

(** The profile with every absent field written out as its default. *)
Definition with_defaults (p : user_profile_dict) : user_profile_dict :=
  {| total_steps_viewed := Some (get (total_steps_viewed p) 0);
     marked_lines := Some (get (marked_lines p) []);
     questions_asked := Some (get (questions_asked p) 0);
     question_topics := Some (get (question_topics p) []);
     completed_runs := Some (get (completed_runs p) 0) |}.

(** The dictionary without any key. *)
Definition empty_profile : user_profile_dict :=
  {| total_steps_viewed := None;
     marked_lines := None;
     questions_asked := None;
     question_topics := None;
     completed_runs := None |}.

(** The fields of the profile as the scorer reads them. *)
Definition viewed_of (p : user_profile_dict) : Z := get (total_steps_viewed p) 0.
Definition base_of (p : user_profile_dict) : Z := if viewed_of p >? 0 then 10 else 0.
Definition complete_of (p : user_profile_dict) : Z :=
  Z.min 30 (get (completed_runs p) 0 * 15).
Definition marks_of (p : user_profile_dict) : list Z := get (marked_lines p) [].
Definition topics_of (p : user_profile_dict) : list string := get (question_topics p) [].

(** The unclamped score of one topic for a profile and a step bonus. *)
Definition raw_score_of (p : user_profile_dict) (step_bonus : Z)
    (knowledge : string) (lines : list Z) : Z :=
  topic_raw_score (base_of p) step_bonus (complete_of p)
    (marks_of p) (topics_of p) knowledge lines.

(** The mapping the loop builds for a profile and a step bonus. *)
Definition scores_with (p : user_profile_dict) (step_bonus : Z) : dict Z :=
  map (fun kv => (fst kv, clamp (raw_score_of p step_bonus (fst kv) (snd kv))))
      KNOWLEDGE_MAP.

(** The number of marks that fall on the lines of a topic. *)
Definition marked_count_of (p : user_profile_dict) (lines : list Z) : Z :=
  sum_ones_if (fun ln => int_in_list ln lines) (marks_of p).

(** What the record built for [(name, score)] holds: the five fields
    that are always there, and no follow-up field for a name outside
    [KNOWLEDGE_GRAPH_RESOURCES]. *)
Definition record_of (kv : string * Z) (rec : dict rec_value) : Prop :=
  dict_get rec "knowledge" = Some (VStr (fst kv)) /\
  dict_get rec "score" = Some (VInt (snd kv)) /\
  dict_get rec "tag" = Some (VStr (fst (tag_of (snd kv)))) /\
  dict_get rec "tag_class" = Some (VStr (snd (tag_of (snd kv)))) /\
  dict_get rec "advice"
  = Some (VStr (dict_get_default ADVICE_MAP (fst kv) EmptyString)) /\
  (dict_contains KNOWLEDGE_GRAPH_RESOURCES (fst kv) = false ->
   dict_get rec "next_topic" = None /\
   dict_get rec "next_difficulty" = None /\
   dict_get rec "next_tip" = None).

(** Ascending order of the scores. *)
Definition score_le (a b : string * Z) : Prop := snd a <= snd b.

(** The entries of a mapping that carry the score [v], in their order. *)
Definition with_score (v : Z) (l : dict Z) : dict Z :=
  filter (fun kv => snd kv =? v) l.

(** An entry of the knowledge base that reaches the highest overlap with
    the question, no earlier entry reaching it. *)
Definition first_best (question : string) (kb : list qa_entry)
    (i : nat) (e : qa_entry) : Prop :=
  nth_error kb i = Some e /\
  (forall e', In e' kb -> overlap question e' <= overlap question e) /\
  (forall j e', (j < i)%nat -> nth_error kb j = Some e' ->
                overlap question e' < overlap question e).

(** A small knowledge base in the shape of the original one. *)
Definition sample_kb : list qa_entry :=
  [ {| keywords := ["基准"; "pivot"; "基准选择"]%string;
       topic := "基准选择"%string;
       answer := "基准是分区时用来比较的元素。"%string |};
    {| keywords := ["递归"; "基准"]%string;
       topic := "递归调用"%string;
       answer := "递归把问题分解为更小的子问题。"%string |} ].

(** *** Specification-side definitions for further properties *)

(** The profile with another count of completed runs. *)
Definition with_completed_runs (p : user_profile_dict) (c : Z) : user_profile_dict :=
  {| total_steps_viewed := total_steps_viewed p;
     marked_lines := marked_lines p;
     questions_asked := questions_asked p;
     question_topics := question_topics p;
     completed_runs := Some c |}.

(** One mapping is pointwise below another, key by key. *)
Definition scores_le (s1 s2 : dict Z) : Prop :=
  forall T x1, dict_get s1 T = Some x1 ->
  exists x2, dict_get s2 T = Some x2 /\ x1 <= x2.

(** The float [x] is a zero, a finite number or an infinity of sign [s]. *)
Definition has_sign (s : bool) (x : spec_float) : Prop :=
  match x with
  | S754_zero s' | S754_infinity s' | S754_finite s' _ _ => s' = s
  | S754_nan => False
  end.

(** The value [m * 2^e] is at least the integer [c]. *)
Definition ge_int (c m e : Z) : Prop :=
  if 0 <=? e then c <= m * 2 ^ e else c * 2 ^ (- e) <= m.

(** The keys of a record, in insertion order, without and with the
    follow-up resource of the knowledge graph. *)
Definition record_keys_short : list string :=
  ["knowledge"; "score"; "tag"; "tag_class"; "advice"]%string.

Definition record_keys_full : list string :=
  record_keys_short
  ++ ["next_topic"%string; "next_difficulty"%string; "next_tip"%string].

(** The name and the score that a record carries. *)
Definition rec_knowledge (rec : dict rec_value) : option rec_value :=
  dict_get rec "knowledge".

Definition rec_score (rec : dict rec_value) : option rec_value :=
  dict_get rec "score".

(** *** Specification-side definitions for the routes *)

(** The chat rows of one profile, oldest first. *)
Definition chat_of (uid : Z) (rows : list ChatHistory.t) : list ChatHistory.t :=
  filter (fun c => ChatHistory.user_id c =? uid) rows.

(** The counters of a profile agree with its chat rows. *)
Definition counts_chat (rows : list ChatHistory.t) (u : UserProfile.t) : Prop :=
  UserProfile.questions_asked u = Z.of_nat (List.length (chat_of (UserProfile.id u) rows)) /\
  UserProfile.question_topics u
  = filter Api.str_truthy (map ChatHistory.topic (chat_of (UserProfile.id u) rows)).

(** Stored scores: the column default, or one score in [0,100] for each
    of the five topics. *)
Definition scores_well_formed (scores : dict Z) : Prop :=
  scores = [] \/
  (dict_keys scores = topic_names /\ Forall (fun kv => 0 <= snd kv <= 100) scores).

(** What every reachable database satisfies. *)
Definition consistent (st : Api.db) : Prop :=
  NoDup (map UserProfile.session_id (Api.user_profile st)) /\
  NoDup (map UserProfile.id (Api.user_profile st)) /\
  Forall (fun c => In (ChatHistory.user_id c) (map UserProfile.id (Api.user_profile st)))
         (Api.chat_history st) /\
  Forall (fun r => In (LearningRecord.user_id r) (map UserProfile.id (Api.user_profile st)))
         (Api.learning_record st) /\
  Forall (counts_chat (Api.chat_history st)) (Api.user_profile st) /\
  Forall (fun u => scores_well_formed (UserProfile.skill_scores u)) (Api.user_profile st).

(** A request that overwrites the list of marked lines. *)
Definition overwrites_marks (req : Api.request) : Prop :=
  match req with
  | Api.POST_profile (Some d) => Requests.marked_lines d <> None
  | _ => False
  end.

(** [l1] is an initial segment of [l2]. *)
Definition prefix_of {A : Type} (l1 l2 : list A) : Prop :=
  exists rest, l2 = l1 ++ rest.

(** What one request may do to the tables: rows are added at the end,
    primary keys and session ids of the profiles stay. *)
Definition grows (st st' : Api.db) : Prop :=
  prefix_of (map UserProfile.id (Api.user_profile st)) (map UserProfile.id (Api.user_profile st')) /\
  prefix_of (map UserProfile.session_id (Api.user_profile st))
            (map UserProfile.session_id (Api.user_profile st')) /\
  prefix_of (Api.learning_record st) (Api.learning_record st') /\
  prefix_of (Api.chat_history st) (Api.chat_history st').

(** The matcher of the routes over the sample knowledge base. *)
Definition sample_matcher : string -> string * string :=
  match_answer sample_kb "抱歉，我暂时无法回答这个问题。".

(** ** Lemmas on the runtime model *)

Section DictFacts.
Context {V : Type}.

Lemma dict_get_map {W : Type} (f : string -> V -> W) (d : dict V) (k : string) :
  dict_get (map (fun kv => (fst kv, f (fst kv) (snd kv))) d) k
  = option_map (f k) (dict_get d k).
Proof.
  induction d as [|[k' v] d IH]; simpl; [reflexivity|].
  destruct (String.eqb k k') eqn:E; [|exact IH].
  apply String.eqb_eq in E. subst k'. reflexivity.
Qed.

Lemma dict_get_In (d : dict V) (k : string) (v : V) :
  dict_get d k = Some v -> In (k, v) d.
Proof.
  induction d as [|[k' v'] d IH]; simpl; [discriminate|].
  destruct (String.eqb k k') eqn:E.
  - apply String.eqb_eq in E. intros [= ->]. left. now subst.
  - intros H. right. now apply IH.
Qed.
End DictFacts.

Lemma calculate_skill_scores_eq (p : user_profile_dict) (t : Z) :
  calculate_skill_scores p t
  = (step_bonus <- step_bonus_of (viewed_of p) t ;; Ok (scores_with p step_bonus)).
Proof. reflexivity. Qed.

Lemma calculate_skill_scores_inv (p : user_profile_dict) (t : Z) (s : dict Z) :
  calculate_skill_scores p t = Ok s ->
  exists sb, step_bonus_of (viewed_of p) t = Ok sb /\ s = scores_with p sb.
Proof.
  rewrite calculate_skill_scores_eq.
  destruct (step_bonus_of _ t) as [sb|e]; cbn [bind]; [|discriminate].
  intros [= <-]. eauto.
Qed.

Lemma scores_with_get (p : user_profile_dict) (sb : Z) (T : string) :
  dict_get (scores_with p sb) T
  = option_map (fun lines => clamp (raw_score_of p sb T lines))
      (dict_get KNOWLEDGE_MAP T).
Proof.
  unfold scores_with.
  exact (dict_get_map (fun k l => clamp (raw_score_of p sb k l)) KNOWLEDGE_MAP T).
Qed.

Lemma clamp_range (x : Z) : 0 <= clamp x <= 100.
Proof. unfold clamp. lia. Qed.

Lemma sum_ones_if_nonneg {A : Type} (f : A -> bool) (l : list A) :
  0 <= sum_ones_if f l.
Proof. induction l as [|x l IH]; simpl; [lia|]. destruct (f x); lia. Qed.

Lemma sum_ones_if_app {A : Type} (f : A -> bool) (l1 l2 : list A) :
  sum_ones_if f (l1 ++ l2) = sum_ones_if f l1 + sum_ones_if f l2.
Proof. induction l1 as [|x l IH]; simpl; [reflexivity|]. rewrite IH. lia. Qed.

Lemma int_in_list_In (x : Z) (l : list Z) : In x l -> int_in_list x l = true.
Proof.
  intros H. unfold int_in_list. apply existsb_exists.
  exists x. split; [assumption|apply Z.eqb_refl].
Qed.

(** A topic that owns a line is one of the four with code lines. *)
Lemma lines_nonempty_not_complexity (T : string) (lines : list Z) (L : Z) :
  dict_get KNOWLEDGE_MAP T = Some lines -> In L lines ->
  String.eqb T "复杂度分析" = false.
Proof.
  intros HT HL. destruct (String.eqb T "复杂度分析") eqn:E; [|reflexivity].
  apply String.eqb_eq in E. subst T. simpl in HT.
  injection HT as <-. destruct HL.
Qed.

(** Without the per-question bonus the unclamped score is at most 85. *)
Lemma raw_score_le_85 (p : user_profile_dict) (sb : Z) (T : string) (lines : list Z) :
  sb <= 30 -> String.eqb T "复杂度分析" = false ->
  raw_score_of p sb T lines <= 85.
Proof.
  intros Hsb HT. unfold raw_score_of, topic_raw_score. rewrite HT.
  pose proof (sum_ones_if_nonneg (fun ln => int_in_list ln lines) (marks_of p)).
  unfold base_of, complete_of.
  destruct (viewed_of p >? 0); destruct (str_in_list T (topics_of p)); lia.
Qed.

(** Replacing the marks leaves the other inputs of the scorer alone. *)
Lemma with_marked_lines_viewed (p : user_profile_dict) (l : list Z) :
  viewed_of (with_marked_lines p l) = viewed_of p.
Proof. reflexivity. Qed.

Lemma with_marked_lines_base (p : user_profile_dict) (l : list Z) :
  base_of (with_marked_lines p l) = base_of p.
Proof. reflexivity. Qed.

Lemma with_marked_lines_complete (p : user_profile_dict) (l : list Z) :
  complete_of (with_marked_lines p l) = complete_of p.
Proof. reflexivity. Qed.

Lemma with_marked_lines_topics (p : user_profile_dict) (l : list Z) :
  topics_of (with_marked_lines p l) = topics_of p.
Proof. reflexivity. Qed.

Lemma with_marked_lines_marks (p : user_profile_dict) (l : list Z) :
  marks_of (with_marked_lines p l) = l.
Proof. reflexivity. Qed.

(** Replacing the question topics leaves the other inputs alone. *)
Lemma with_question_topics_viewed (p : user_profile_dict) (l : list string) :
  viewed_of (with_question_topics p l) = viewed_of p.
Proof. reflexivity. Qed.

Lemma with_question_topics_base (p : user_profile_dict) (l : list string) :
  base_of (with_question_topics p l) = base_of p.
Proof. reflexivity. Qed.

Lemma with_question_topics_complete (p : user_profile_dict) (l : list string) :
  complete_of (with_question_topics p l) = complete_of p.
Proof. reflexivity. Qed.

Lemma with_question_topics_marks (p : user_profile_dict) (l : list string) :
  marks_of (with_question_topics p l) = marks_of p.
Proof. reflexivity. Qed.

Lemma with_question_topics_topics (p : user_profile_dict) (l : list string) :
  topics_of (with_question_topics p l) = l.
Proof. reflexivity. Qed.

Ltac same_fields :=
  rewrite ?with_marked_lines_viewed, ?with_marked_lines_base,
    ?with_marked_lines_complete, ?with_marked_lines_topics,
    ?with_marked_lines_marks, ?with_question_topics_viewed,
    ?with_question_topics_base, ?with_question_topics_complete,
    ?with_question_topics_marks, ?with_question_topics_topics in *.

Lemma sum_ones_if_count (L : Z) (lines ml : list Z) :
  In L lines ->
  sum_ones_if (fun ln => int_in_list ln lines) ml
  = Z.of_nat (count_occ Z.eq_dec ml L)
    + sum_ones_if (fun ln => int_in_list ln lines) (remove Z.eq_dec L ml).
Proof.
  intros HL. induction ml as [|y ml IH]; [reflexivity|].
  cbn [sum_ones_if count_occ remove]. rewrite IH.
  destruct (Z.eq_dec y L) as [Hy|Hy]; destruct (Z.eq_dec L y) as [E|E];
    try congruence.
  - subst y. rewrite (int_in_list_In L lines HL). lia.
  - cbn [sum_ones_if]. lia.
Qed.

Lemma str_in_list_In (x : string) (l : list string) :
  In x l -> str_in_list x l = true.
Proof.
  intros H. unfold str_in_list. apply existsb_exists.
  exists x. split; [assumption|apply String.eqb_refl].
Qed.

Lemma list_count_not_in (x : string) (l : list string) :
  str_in_list x l = false -> list_count l x = 0.
Proof.
  induction l as [|y l IH]; simpl; [reflexivity|].
  rewrite String.eqb_sym. destruct (String.eqb y x); simpl; [discriminate|].
  intros H. rewrite IH by assumption. reflexivity.
Qed.

Lemma list_count_nonneg (x : string) (l : list string) : 0 <= list_count l x.
Proof. induction l as [|y l IH]; simpl; [lia|]. destruct (String.eqb y x); lia. Qed.

(** The table has exactly one topic without lines. *)
Lemma empty_lines_iff_complexity (T : string) (lines : list Z) :
  dict_get KNOWLEDGE_MAP T = Some lines -> (lines = [] <-> T = complexity_topic).
Proof.
  intros H. apply dict_get_In in H. simpl in H.
  repeat (destruct H as [H|H]; [injection H as <- <-; split; discriminate || reflexivity|]).
  destruct H.
Qed.

(** A few evaluations of the step bonus: half of the animation seen, a
    tie of the rounding that goes to the even side, a negative count. *)
Example step_bonus_half : step_bonus_of 25 50 = Ok 15.
Proof. reflexivity. Qed.

Example step_bonus_tie : step_bonus_of 1 60 = Ok 0 /\ step_bonus_of 3 60 = Ok 2.
Proof. split; reflexivity. Qed.

Example step_bonus_capped : step_bonus_of 500 50 = Ok 30.
Proof. reflexivity. Qed.

Example step_bonus_negative : step_bonus_of (-7) 3 = Ok (-70).
Proof. reflexivity. Qed.

(** ** Lemmas on binary64 rounding

    The number of binary digits of a mantissa bounds its value; a right
    shift divides the mantissa; a rounding whose input stays below
    [2^1023] yields zero or a finite double. *)

Lemma Zdigits2_log2 (p : positive) : Zpos (digits2_pos p) = Z.log2 (Zpos p) + 1.
Proof.
  assert (H : forall q, digits2_pos q = Pos.size q).
  { induction q; simpl; congruence. }
  rewrite H. destruct p; simpl; lia.
Qed.

Lemma Zdigits2_nonneg (m : Z) : 0 <= Zdigits2 m.
Proof. destruct m; simpl; lia. Qed.

Lemma Zdigits2_le_iff (m k : Z) :
  0 <= m -> 0 <= k -> (Zdigits2 m <= k <-> m < 2 ^ k).
Proof.
  intros Hm Hk. destruct m as [|p|p]; [|clear Hm|lia].
  - simpl. split; intros _; [apply Z.pow_pos_nonneg|]; lia.
  - unfold Zdigits2. rewrite Zdigits2_log2.
    rewrite (Z.log2_lt_pow2 (Zpos p) k) by lia. lia.
Qed.

Lemma Zdigits2_gt (m : Z) : 0 <= m -> m < 2 ^ Zdigits2 m.
Proof.
  intros Hm. apply Zdigits2_le_iff; auto using Zdigits2_nonneg. lia.
Qed.

Lemma shr_m_of_loc (m : Z) (l : location) : shr_m (shr_record_of_loc m l) = m.
Proof. destruct l as [|[]]; reflexivity. Qed.

Lemma shr_m_shr_1 (mrs : shr_record) :
  0 <= shr_m mrs -> shr_m (shr_1 mrs) = shr_m mrs / 2.
Proof.
  destruct mrs as [m r s]. simpl. intros Hm.
  destruct m as [|[p|p|]|p]; try lia; simpl shr_m; try reflexivity.
  - apply Z.div_unique with 1; lia.
  - apply Z.div_unique with 0; lia.
Qed.

Lemma shr_m_iter (p : positive) : forall mrs,
  0 <= shr_m mrs ->
  shr_m (iter_pos shr_1 p mrs) = shr_m mrs / 2 ^ Zpos p.
Proof.
  assert (H2 : forall mrs, 0 <= shr_m mrs -> 0 <= shr_m (shr_1 mrs)).
  { intros mrs H. rewrite shr_m_shr_1 by assumption. apply Z.div_pos; lia. }
  assert (Hp : forall k, 0 < 2 ^ Zpos k) by (intros; apply Z.pow_pos_nonneg; lia).
  induction p as [p IH|p IH|]; intros mrs Hm; simpl iter_pos.
  - assert (E : 2 ^ Zpos p~1 = 2 * (2 ^ Zpos p * 2 ^ Zpos p)).
    { rewrite <- Z.pow_add_r, <- Z.pow_succ_r by lia. f_equal. lia. }
    assert (H0 := H2 _ Hm).
    assert (H1 : 0 <= shr_m (iter_pos shr_1 p (shr_1 mrs))).
    { rewrite IH by assumption. apply Z.div_pos; auto. }
    rewrite IH, IH, shr_m_shr_1, E by assumption.
    pose proof (Hp p).
    rewrite !Z.div_div by lia. reflexivity.
  - assert (E : 2 ^ Zpos p~0 = 2 ^ Zpos p * 2 ^ Zpos p).
    { rewrite <- Z.pow_add_r by lia. f_equal. lia. }
    assert (H1 : 0 <= shr_m (iter_pos shr_1 p mrs)).
    { rewrite IH by assumption. apply Z.div_pos; auto. }
    rewrite IH, IH, E by assumption.
    pose proof (Hp p).
    rewrite !Z.div_div by lia. reflexivity.
  - rewrite shr_m_shr_1 by assumption. reflexivity.
Qed.

Lemma fexp_64 (e : Z) : fexp prec emax e = Z.max (e - 53) (-1074).
Proof. reflexivity. Qed.

Lemma shr_fexp_bound (m e : Z) (l : location) (K : Z) mrs e' :
  0 <= m -> Zdigits2 m + e <= K -> -1074 <= K ->
  shr_fexp prec emax m e l = (mrs, e') ->
  0 <= shr_m mrs /\ shr_m mrs < 2 ^ (K - e') /\ e' <= K /\
  e' <= Z.max e (Z.max (K - 53) (-1074)).
Proof.
  intros Hm HK HK0. unfold shr_fexp. rewrite fexp_64.
  pose proof (Zdigits2_nonneg m) as Hd.
  pose proof (Zdigits2_gt m Hm) as Hlt.
  set (n := Z.max (Zdigits2 m + e - 53) (-1074) - e).
  assert (Hn : n = Z.max (Zdigits2 m + e - 53) (-1074) - e) by reflexivity.
  clearbody n.
  destruct n as [|p|p]; simpl shr; intros [= <- <-]; rewrite ?shr_m_of_loc.
  - repeat split; try lia.
    eapply Z.lt_le_trans; [exact Hlt|]. apply Z.pow_le_mono_r; lia.
  - rewrite shr_m_iter by (rewrite shr_m_of_loc; exact Hm).
    rewrite shr_m_of_loc.
    assert (0 < 2 ^ Zpos p) by (apply Z.pow_pos_nonneg; lia).
    repeat split; try lia.
    + apply Z.div_pos; lia.
    + apply Z.div_lt_upper_bound; [lia|].
      rewrite <- Z.pow_add_r by lia.
      eapply Z.lt_le_trans; [exact Hlt|]. apply Z.pow_le_mono_r; lia.
  - repeat split; try lia.
    eapply Z.lt_le_trans; [exact Hlt|]. apply Z.pow_le_mono_r; lia.
Qed.

Lemma round_nearest_even_bound (m : Z) (l : location) :
  m <= round_nearest_even m l <= m + 1.
Proof.
  unfold round_nearest_even. destruct l as [|[]]; try lia.
  destruct (Z.even m); lia.
Qed.

Lemma binary_round_aux_finite (sx : bool) (mx ex : Z) (lx : location) (K : Z) :
  0 <= mx -> Zdigits2 mx + ex <= K -> -1074 <= K <= 1023 -> ex <= 971 ->
  binary_round_aux prec emax sx mx ex lx = S754_zero sx \/
  exists m e, binary_round_aux prec emax sx mx ex lx = S754_finite sx m e /\
              Zpos (digits2_pos m) + e <= K + 1 /\ e <= 971.
Proof.
  intros Hm HK HKr He. unfold binary_round_aux.
  destruct (shr_fexp prec emax mx ex lx) as [mrs1 e1] eqn:E1.
  destruct (shr_fexp_bound _ _ _ K _ _ Hm HK (proj1 HKr) E1) as (H1 & H2 & H3 & H4).
  pose proof (round_nearest_even_bound (shr_m mrs1) (loc_of_shr_record mrs1)) as Hr.
  set (m2 := round_nearest_even (shr_m mrs1) (loc_of_shr_record mrs1)) in *.
  assert (Hm2 : 0 <= m2) by lia.
  assert (Hd2 : Zdigits2 m2 + e1 <= K + 1).
  { enough (Zdigits2 m2 <= K + 1 - e1) by lia.
    apply Zdigits2_le_iff; [lia|lia|].
    replace (K + 1 - e1) with (Z.succ (K - e1)) by lia.
    rewrite Z.pow_succ_r by lia. lia. }
  destruct (shr_fexp prec emax m2 e1 loc_Exact) as [mrs2 e2] eqn:E2.
  assert (HK1 : -1074 <= K + 1) by lia.
  destruct (shr_fexp_bound _ _ _ (K + 1) _ _ Hm2 Hd2 HK1 E2) as (G1 & G2 & G3 & G4).
  destruct (shr_m mrs2) as [|m3|m3] eqn:E3; [now left| |lia].
  right. exists m3, e2.
  assert (He2 : e2 <= 971) by lia.
  change (emax - prec) with 971.
  destruct (Z.leb_spec e2 971); [|lia].
  assert (Hd3 : Zdigits2 (Zpos m3) <= K + 1 - e2) by (apply Zdigits2_le_iff; lia).
  unfold Zdigits2 in Hd3.
  split; [reflexivity|lia].
Qed.

Lemma int_truediv_finite (a b : Z) :
  Z.abs a < 2 ^ 1000 -> 0 < b ->
  exists q, int_truediv a b = Ok q /\
    (q = S754_zero (a <? 0) \/
     exists m e, q = S754_finite (a <? 0) m e /\
                 Zpos (digits2_pos m) + e <= 1001 /\ e <= 971).
Proof.
  intros Ha Hb. unfold int_truediv.
  destruct (Z.eqb_spec b 0) as [->|_]; [lia|].
  destruct b as [|pb|pb]; try lia. clear Hb.
  assert (Hfin : forall s pa, Zpos pa < 2 ^ 1000 ->
     SFdiv prec emax (S754_finite s pa 0) (S754_finite false pb 0) = S754_zero s \/
     exists m e, SFdiv prec emax (S754_finite s pa 0) (S754_finite false pb 0)
                 = S754_finite s m e /\
                 Zpos (digits2_pos m) + e <= 1001 /\ e <= 971).
  { intros s pa Hpa. unfold SFdiv, SFdiv_core_binary.
    rewrite fexp_64.
    set (e' := Z.min _ (0 - 0)).
    assert (He' : e' <= 0) by (subst e'; lia).
    set (m' := match 0 - 0 - e' with Z0 => Zpos pa | Zpos _ => Z.shiftl (Zpos pa) (0 - 0 - e') | Zneg _ => 0 end).
    assert (Hm' : m' = Zpos pa * 2 ^ (- e')).
    { subst m'. replace (0 - 0 - e') with (- e') by lia.
      destruct (- e') as [|p|p] eqn:Ee; try lia.
      rewrite Z.shiftl_mul_pow2 by lia. reflexivity. }
    clearbody m'.
    pose proof (Z.div_eucl_eq m' (Zpos pb) ltac:(lia)) as Hdiv.
    pose proof (Z.mod_pos_bound m' (Zpos pb) ltac:(lia)) as Hmod.
    unfold Z.modulo in Hmod.
    destruct (Z.div_eucl m' (Zpos pb)) as [q r].
    assert (Hp : 0 < 2 ^ (- e')) by (apply Z.pow_pos_nonneg; lia).
    assert (Hq0 : 0 <= q) by nia.
    assert (Hq : q <= m') by nia.
    replace (xorb s false) with s by (destruct s; reflexivity).
    assert (Hd : Zdigits2 q + e' <= 1000).
    { enough (Zdigits2 q <= 1000 - e') by lia.
      apply Zdigits2_le_iff; [lia|lia|].
      replace (1000 - e') with (1000 + - e') by lia.
      rewrite Z.pow_add_r by lia. nia. }
    apply (binary_round_aux_finite s q e' _ 1000); lia. }
  destruct a as [|pa|pa]; simpl exact_int.
  - simpl. eexists; split; [reflexivity|]. now left.
  - destruct (Hfin false pa ltac:(lia)) as [E|(m & e & E & H)]; rewrite E;
      (eexists; split; [reflexivity|]); [now left|right; eauto].
  - destruct (Hfin true pa ltac:(lia)) as [E|(m & e & E & H)]; rewrite E;
      (eexists; split; [reflexivity|]); [now left|right; eauto].
Qed.

Lemma float_of_int_30 :
  float_of_int 30 = Ok (S754_finite false 8444249301319680 (-48)).
Proof. reflexivity. Qed.

Lemma float_mul_30_round (q : spec_float) (s : bool) :
  (q = S754_zero s \/
   exists m e, q = S754_finite s m e /\
               Zpos (digits2_pos m) + e <= 1001 /\ e <= 971) ->
  exists y r, float_mul_int q 30 = Ok y /\ float_round y = Ok r.
Proof.
  unfold float_mul_int. rewrite float_of_int_30. simpl bind.
  intros [->|(m & e & -> & Hd & He)].
  - do 2 eexists; split; reflexivity.
  - unfold SFmul.
    assert (Hm : Zdigits2 (Zpos (m * 8444249301319680)) + (e + -48) <= 1006).
    { enough (Zdigits2 (Zpos (m * 8444249301319680)) <= 1006 - (e + -48)) by lia.
      pose proof (Zdigits2_gt (Zpos m) ltac:(lia)) as Hlt.
      pose proof (Zdigits2_nonneg (Zpos m)) as H0.
      unfold Zdigits2 in Hlt, H0.
      apply Zdigits2_le_iff; [lia|lia|].
      rewrite Pos2Z.inj_mul.
      replace (1006 - (e + -48)) with (Zpos (digits2_pos m) + (1054 - Zpos (digits2_pos m) - e)) by lia.
      rewrite Z.pow_add_r by lia.
      assert (2 ^ 53 <= 2 ^ (1054 - Zpos (digits2_pos m) - e))
        by (apply Z.pow_le_mono_r; lia).
      assert (8444249301319680 < 2 ^ 53) by reflexivity.
      nia. }
    destruct (binary_round_aux_finite (xorb s false)
                (Zpos (m * 8444249301319680)) (e + -48) loc_Exact 1006
                ltac:(lia) Hm ltac:(lia) ltac:(lia))
      as [E|(m' & e' & E & _)]; rewrite E; do 2 eexists; split; reflexivity.
Qed.

Lemma step_bonus_of_total (v t : Z) :
  Z.abs v < 2 ^ 1000 -> exists sb, step_bonus_of v t = Ok sb.
Proof.
  intros Hv. unfold step_bonus_of.
  destruct (int_truediv_finite v (Z.max t 1) Hv ltac:(lia)) as (q & -> & Hq).
  destruct (float_mul_30_round q _ Hq) as (y & r & Hy & Hr).
  cbn [bind]. rewrite Hy. cbn [bind]. rewrite Hr. cbn [bind]. eauto.
Qed.

Lemma step_bonus_of_le (v t sb : Z) : step_bonus_of v t = Ok sb -> sb <= 30.
Proof.
  unfold step_bonus_of.
  destruct (int_truediv v _) as [q|]; cbn [bind]; [|discriminate].
  destruct (float_mul_int q 30) as [y|]; cbn [bind]; [|discriminate].
  destruct (float_round y) as [r|]; cbn [bind]; [|discriminate].
  intros [= <-]. lia.
Qed.

Lemma step_bonus_of_no_zero_division (v t : Z) :
  step_bonus_of v t <> Err ZeroDivisionError.
Proof.
  unfold step_bonus_of, int_truediv.
  destruct (Z.eqb_spec (Z.max t 1) 0) as [E|_]; [lia|].
  assert (H : forall q,
    (scaled <- float_mul_int q 30 ;; rounded <- float_round scaled ;;
     Ok (Z.min 30 rounded)) <> Err ZeroDivisionError).
  { intros q. unfold float_mul_int. rewrite float_of_int_30. cbn [bind].
    destruct (SFmul prec emax q _); cbn; discriminate. }
  destruct (SFdiv _ _ _ _); cbn [bind]; solve [discriminate | apply H].
Qed.

(** ** The claims about [calculate_skill_scores] *)

(** C1. Whatever the profile and the value of [total_animation_steps],
    every score of the mapping that [calculate_skill_scores] returns lies
    in the interval from 0 to 100. *)
Theorem scores_in_range (p : user_profile_dict) (t : Z) (scores : dict Z) :
  calculate_skill_scores p t = Ok scores ->
  Forall (fun kv => 0 <= snd kv <= 100) scores.
Proof.
  intros H. apply calculate_skill_scores_inv in H as (sb & _ & ->).
  unfold scores_with. apply Forall_map, Forall_forall.
  intros [k lines] _. simpl. apply clamp_range.
Qed.

Lemma scores_in_range_witness :
  calculate_skill_scores
    {| total_steps_viewed := Some 25; marked_lines := Some [1; 12; 12];
       questions_asked := Some 2;
       question_topics := Some ["复杂度分析"; "复杂度分析"]%string;
       completed_runs := Some 1 |} 50
  = Ok [("分治思想", 30); ("基准选择", 20); ("分区操作", 40);
        ("递归调用", 40); ("复杂度分析", 75)]%string /\
  Forall (fun kv => 0 <= snd kv <= 100)
    [("分治思想", 30); ("基准选择", 20); ("分区操作", 40);
     ("递归调用", 40); ("复杂度分析", 75)]%string.
Proof.
  split; [reflexivity|].
  apply (scores_in_range
           {| total_steps_viewed := Some 25; marked_lines := Some [1; 12; 12];
              questions_asked := Some 2;
              question_topics := Some ["复杂度分析"; "复杂度分析"]%string;
              completed_runs := Some 1 |} 50).
  reflexivity.
Defined.

(** C4. For a topic with code lines, a line [L] of the topic and any
    profile, appending [L] to [marked_lines] lowers the topic's score by
    exactly 10, the result being held at 0 from below: the new score is
    [max 0 (old - 10)]. *)
Theorem mark_decreases_by_ten (T : string) (lines : list Z) (L : Z)
    (p : user_profile_dict) (t : Z) (s : dict Z) :
  dict_get KNOWLEDGE_MAP T = Some lines -> In L lines ->
  calculate_skill_scores p t = Ok s ->
  exists x s',
    dict_get s T = Some x /\
    calculate_skill_scores (with_marked_lines p (marks_of p ++ [L])) t = Ok s' /\
    dict_get s' T = Some (Z.max 0 (x - 10)).
Proof.
  intros HT HL H.
  apply calculate_skill_scores_inv in H as (sb & Hsb & ->).
  pose proof (lines_nonempty_not_complexity T lines L HT HL) as HC.
  pose proof (raw_score_le_85 p sb T lines (step_bonus_of_le _ _ _ Hsb) HC) as Hle.
  exists (clamp (raw_score_of p sb T lines)),
         (scores_with (with_marked_lines p (marks_of p ++ [L])) sb).
  split; [rewrite scores_with_get, HT; reflexivity|].
  split.
  - rewrite calculate_skill_scores_eq.
    change (viewed_of (with_marked_lines p (marks_of p ++ [L]))) with (viewed_of p).
    rewrite Hsb. reflexivity.
  - rewrite scores_with_get, HT. simpl option_map. f_equal.
    revert Hle. unfold raw_score_of, topic_raw_score, clamp. rewrite HC.
    change (marks_of (with_marked_lines p (marks_of p ++ [L]))) with (marks_of p ++ [L]).
    change (base_of (with_marked_lines p (marks_of p ++ [L]))) with (base_of p).
    change (complete_of (with_marked_lines p (marks_of p ++ [L]))) with (complete_of p).
    change (topics_of (with_marked_lines p (marks_of p ++ [L]))) with (topics_of p).
    rewrite sum_ones_if_app. simpl sum_ones_if.
    rewrite (int_in_list_In L lines HL).
    destruct (str_in_list T (topics_of p)); lia.
Qed.

Lemma mark_decreases_by_ten_witness :
  exists x s',
    dict_get [("分治思想", 55); ("基准选择", 55); ("分区操作", 55);
              ("递归调用", 55); ("复杂度分析", 55)]%string "基准选择" = Some x /\
    calculate_skill_scores
      (with_marked_lines
         {| total_steps_viewed := Some 50; marked_lines := None;
            questions_asked := None; question_topics := None;
            completed_runs := Some 1 |} ([] ++ [12])) 50 = Ok s' /\
    dict_get s' "基准选择" = Some (Z.max 0 (x - 10)).
Proof.
  apply (mark_decreases_by_ten "基准选择" [11; 12; 20; 21] 12
           {| total_steps_viewed := Some 50; marked_lines := None;
              questions_asked := None; question_topics := None;
              completed_runs := Some 1 |} 50).
  - reflexivity.
  - simpl. auto.
  - reflexivity.
Defined.

(** C9. Marks count with their multiplicity: a line [L] of topic [T]
    that occurs [k] times in [marked_lines] costs [T] ten points [k]
    times over (down to the floor 0), and listing a mark once more
    lowers a positive score strictly. *)
Theorem marks_count_by_multiplicity (T : string) (lines : list Z) (L : Z)
    (p : user_profile_dict) (ml : list Z) (t : Z) (s0 : dict Z) :
  dict_get KNOWLEDGE_MAP T = Some lines -> In L lines ->
  calculate_skill_scores (with_marked_lines p (remove Z.eq_dec L ml)) t = Ok s0 ->
  exists x s y s2,
    dict_get s0 T = Some x /\
    calculate_skill_scores (with_marked_lines p ml) t = Ok s /\
    dict_get s T = Some y /\
    y = Z.max 0 (x - 10 * Z.of_nat (count_occ Z.eq_dec ml L)) /\
    calculate_skill_scores (with_marked_lines p (L :: ml)) t = Ok s2 /\
    dict_get s2 T = Some (Z.max 0 (y - 10)) /\
    (0 < y -> Z.max 0 (y - 10) < y).
Proof.
  intros HT HL H.
  apply calculate_skill_scores_inv in H as (sb & Hsb & ->).
  change (viewed_of (with_marked_lines p (remove Z.eq_dec L ml)))
    with (viewed_of p) in Hsb.
  pose proof (lines_nonempty_not_complexity T lines L HT HL) as HC.
  pose proof (step_bonus_of_le _ _ _ Hsb) as Hle.
  pose proof (raw_score_le_85 (with_marked_lines p (remove Z.eq_dec L ml))
                sb T lines Hle HC) as H0.
  pose proof (raw_score_le_85 (with_marked_lines p ml) sb T lines Hle HC) as H1.
  assert (Hcalc : forall l, calculate_skill_scores (with_marked_lines p l) t
                            = Ok (scores_with (with_marked_lines p l) sb)).
  { intros l. rewrite calculate_skill_scores_eq.
    change (viewed_of (with_marked_lines p l)) with (viewed_of p).
    rewrite Hsb. reflexivity. }
  exists (clamp (raw_score_of (with_marked_lines p (remove Z.eq_dec L ml)) sb T lines)),
         (scores_with (with_marked_lines p ml) sb),
         (clamp (raw_score_of (with_marked_lines p ml) sb T lines)),
         (scores_with (with_marked_lines p (L :: ml)) sb).
  rewrite !scores_with_get, HT, !Hcalc. simpl option_map.
  revert H0 H1. unfold raw_score_of, topic_raw_score, clamp. rewrite HC.
  change (marks_of (with_marked_lines p ml)) with ml.
  change (marks_of (with_marked_lines p (L :: ml))) with (L :: ml).
  change (marks_of (with_marked_lines p (remove Z.eq_dec L ml)))
    with (remove Z.eq_dec L ml).
  cbn [sum_ones_if]. rewrite (int_in_list_In L lines HL).
  rewrite (sum_ones_if_count L lines ml HL).
  same_fields. intros H0 H1.
  destruct (str_in_list T (topics_of p));
    repeat split; try reflexivity; try (f_equal; lia); lia.
Qed.

Lemma marks_count_by_multiplicity_witness :
  exists x s y s2,
    dict_get [("分治思想", 70); ("基准选择", 70); ("分区操作", 70);
              ("递归调用", 60); ("复杂度分析", 70)]%string "基准选择" = Some x /\
    calculate_skill_scores
      (with_marked_lines
         {| total_steps_viewed := Some 50; marked_lines := None;
            questions_asked := None; question_topics := None;
            completed_runs := Some 2 |} [12; 3; 12; 12]) 50 = Ok s /\
    dict_get s "基准选择" = Some y /\
    y = Z.max 0 (x - 10 * Z.of_nat (count_occ Z.eq_dec [12; 3; 12; 12] 12)) /\
    calculate_skill_scores
      (with_marked_lines
         {| total_steps_viewed := Some 50; marked_lines := None;
            questions_asked := None; question_topics := None;
            completed_runs := Some 2 |} [12; 12; 3; 12; 12]) 50 = Ok s2 /\
    dict_get s2 "基准选择" = Some (Z.max 0 (y - 10)) /\
    (0 < y -> Z.max 0 (y - 10) < y).
Proof.
  apply (marks_count_by_multiplicity "基准选择" [11; 12; 20; 21] 12
           {| total_steps_viewed := Some 50; marked_lines := None;
              questions_asked := None; question_topics := None;
              completed_runs := Some 2 |} [12; 3; 12; 12] 50).
  - reflexivity.
  - simpl. auto.
  - reflexivity.
Defined.

(** C5. '复杂度分析' is the one topic without code lines; its score is the
    clamp of the common part plus 15 for presence plus 10 for each
    occurrence of its name in [question_topics].  Every other topic gets
    15 for presence only, less 10 for each mark on its lines, and nothing
    per occurrence. *)
Theorem complexity_bonus_per_occurrence (p : user_profile_dict) (t sb : Z) :
  step_bonus_of (viewed_of p) t = Ok sb ->
  exists s,
    calculate_skill_scores p t = Ok s /\
    dict_get s complexity_topic
    = Some (clamp (base_of p + sb + complete_of p
                   + (if str_in_list complexity_topic (topics_of p) then 15 else 0)
                   + 10 * list_count (topics_of p) complexity_topic)) /\
    (forall T lines,
        dict_get KNOWLEDGE_MAP T = Some lines -> T <> complexity_topic ->
        dict_get s T
        = Some (clamp (base_of p + sb + complete_of p
                       + (if str_in_list T (topics_of p) then 15 else 0)
                       - 10 * marked_count_of p lines))) /\
    (forall T lines,
        dict_get KNOWLEDGE_MAP T = Some lines ->
        (lines = [] <-> T = complexity_topic)).
Proof.
  intros Hsb. exists (scores_with p sb).
  split; [rewrite calculate_skill_scores_eq, Hsb; reflexivity|].
  split; [|split].
  - rewrite scores_with_get. simpl option_map. f_equal. f_equal.
    unfold raw_score_of, topic_raw_score, complexity_topic.
    rewrite String.eqb_refl.
    assert (E : sum_ones_if (fun ln => int_in_list ln []) (marks_of p) = 0).
    { induction (marks_of p) as [|y l IH]; simpl; [reflexivity|exact IH]. }
    rewrite E. destruct (str_in_list _ (topics_of p)); lia.
  - intros T lines HT HC. rewrite scores_with_get, HT. simpl option_map.
    f_equal. f_equal.
    unfold raw_score_of, topic_raw_score, marked_count_of.
    apply String.eqb_neq in HC. unfold complexity_topic in HC. rewrite HC.
    destruct (str_in_list T (topics_of p)); lia.
  - exact empty_lines_iff_complexity.
Qed.

Lemma complexity_bonus_per_occurrence_witness :
  exists s,
    calculate_skill_scores
      {| total_steps_viewed := Some 10; marked_lines := Some [3];
         questions_asked := Some 3;
         question_topics := Some ["复杂度分析"; "递归调用"; "复杂度分析"]%string;
         completed_runs := Some 0 |} 50 = Ok s /\
    dict_get s complexity_topic = Some (clamp (10 + 6 + 0 + 15 + 10 * 2)).
Proof.
  destruct (complexity_bonus_per_occurrence
              {| total_steps_viewed := Some 10; marked_lines := Some [3];
                 questions_asked := Some 3;
                 question_topics := Some ["复杂度分析"; "递归调用"; "复杂度分析"]%string;
                 completed_runs := Some 0 |} 50 6 eq_refl)
    as (s & Hs & Hc & _).
  exists s. split; [exact Hs|exact Hc].
Defined.

(** C2, as the code has it.  Let [T] be a topic of the table that the
    profile has not asked about, and let
    [r = base + step bonus + completion bonus - 10 x (marks on the lines
    of T)] be its score before the clamp.  The call returns [clamp r]
    for [T]; with a question-topics list that contains [T] (once or
    more, wherever) it returns [clamp (r + 15)], and for '复杂度分析'
    [clamp (r + 15 + 10 x occurrences)].  For the four other topics
    [r <= 70], so the rise is exactly 15 as soon as [0 <= r], and the
    number of occurrences plays no part. *)
Theorem question_adds_fifteen (T : string) (lines : list Z)
    (p : user_profile_dict) (qs' : list string) (t sb : Z) :
  dict_get KNOWLEDGE_MAP T = Some lines ->
  str_in_list T (topics_of p) = false -> In T qs' ->
  step_bonus_of (viewed_of p) t = Ok sb ->
  let r := base_of p + sb + complete_of p - 10 * marked_count_of p lines in
  exists s s',
    calculate_skill_scores p t = Ok s /\
    dict_get s T = Some (clamp r) /\
    calculate_skill_scores (with_question_topics p qs') t = Ok s' /\
    dict_get s' T
    = Some (clamp (r + 15 + (if String.eqb T complexity_topic
                             then 10 * list_count qs' T else 0))) /\
    (T <> complexity_topic ->
     r <= 70 /\ (0 <= r -> dict_get s' T = Some (clamp r + 15))).
Proof.
  intros HT Hnot Hin Hsb r.
  pose proof (step_bonus_of_le _ _ _ Hsb) as Hle.
  pose proof (sum_ones_if_nonneg (fun ln => int_in_list ln lines) (marks_of p)) as Hm.
  assert (E : raw_score_of p sb T lines = r).
  { unfold raw_score_of, topic_raw_score, r, marked_count_of. rewrite Hnot.
    destruct (String.eqb T "复杂度分析") eqn:EC; [|lia].
    apply String.eqb_eq in EC. subst T.
    rewrite (list_count_not_in _ _ Hnot). lia. }
  assert (E' : raw_score_of (with_question_topics p qs') sb T lines
               = r + 15 + (if String.eqb T complexity_topic
                           then 10 * list_count qs' T else 0)).
  { rewrite <- E.
    unfold raw_score_of, topic_raw_score, complexity_topic. same_fields.
    rewrite Hnot, (str_in_list_In T qs' Hin).
    destruct (String.eqb T "复杂度分析") eqn:EC; [|lia].
    apply String.eqb_eq in EC. subst T.
    rewrite (list_count_not_in _ _ Hnot). lia. }
  assert (Hr70 : T <> complexity_topic -> r <= 70).
  { intros HC. apply String.eqb_neq in HC. unfold complexity_topic in HC.
    unfold r, marked_count_of, base_of, complete_of.
    destruct (viewed_of p >? 0); lia. }
  exists (scores_with p sb), (scores_with (with_question_topics p qs') sb).
  rewrite !calculate_skill_scores_eq, !scores_with_get, HT.
  rewrite with_question_topics_viewed, Hsb. cbn [option_map bind].
  rewrite E, E'.
  split; [reflexivity|]. split; [reflexivity|]. split; [reflexivity|].
  split; [reflexivity|].
  intros HC. split; [exact (Hr70 HC)|].
  intros Hr. f_equal. specialize (Hr70 HC).
  apply String.eqb_neq in HC. rewrite HC. unfold clamp. lia.
Qed.

Lemma question_adds_fifteen_witness :
  step_bonus_of 25 50 = Ok 15 /\
  exists s s',
    calculate_skill_scores
      {| total_steps_viewed := Some 25; marked_lines := Some [5];
         questions_asked := None; question_topics := None;
         completed_runs := None |} 50 = Ok s /\
    dict_get s "递归调用"%string = Some (clamp (10 + 15 + 0 - 10 * 1)) /\
    calculate_skill_scores
      (with_question_topics
         {| total_steps_viewed := Some 25; marked_lines := Some [5];
            questions_asked := None; question_topics := None;
            completed_runs := None |} ["递归调用"; "分治思想"; "递归调用"]%string) 50
    = Ok s' /\
    dict_get s' "递归调用"%string = Some (clamp (10 + 15 + 0 - 10 * 1 + 15 + 0)).
Proof.
  split; [reflexivity|].
  destruct (question_adds_fifteen "递归调用" [3; 5; 6]
              {| total_steps_viewed := Some 25; marked_lines := Some [5];
                 questions_asked := None; question_topics := None;
                 completed_runs := None |}
              ["递归调用"; "分治思想"; "递归调用"]%string 50 15
              eq_refl eq_refl (or_introl eq_refl) eq_refl)
    as (s & s' & Hs & Hg & Hs' & Hg' & _).
  exists s, s'. repeat split; assumption.
Defined.

(** C2 as stated fails twice over: on '复杂度分析' one question is worth
    25, not 15; and on a topic whose marks hold the score at 0 the
    question changes nothing. *)
Lemma question_adds_fifteen_counterexample :
  ~ (forall (T : string) (p : user_profile_dict) (qs' : list string) (t : Z)
            (s s' : dict Z) (x : Z),
        str_in_list T (topics_of p) = false -> In T qs' ->
        filter (fun q => negb (String.eqb q T)) qs' = topics_of p ->
        calculate_skill_scores p t = Ok s ->
        calculate_skill_scores (with_question_topics p qs') t = Ok s' ->
        dict_get s T = Some x -> dict_get s' T = Some (x + 15)) /\
  ~ (forall (T : string) (p : user_profile_dict) (qs' : list string) (t : Z)
            (s s' : dict Z) (x : Z),
        T <> complexity_topic ->
        str_in_list T (topics_of p) = false -> In T qs' ->
        filter (fun q => negb (String.eqb q T)) qs' = topics_of p ->
        calculate_skill_scores p t = Ok s ->
        calculate_skill_scores (with_question_topics p qs') t = Ok s' ->
        dict_get s T = Some x -> dict_get s' T = Some (x + 15)).
Proof.
  split; intros H.
  - specialize (H "复杂度分析"%string empty_profile ["复杂度分析"%string] 50
                  _ _ 0 eq_refl (or_introl eq_refl) eq_refl eq_refl eq_refl eq_refl).
    discriminate H.
  - specialize (H "分治思想"%string
                  {| total_steps_viewed := None; marked_lines := Some [1; 2];
                     questions_asked := None; question_topics := None;
                     completed_runs := None |}
                  ["分治思想"%string] 50 _ _ 0 ltac:(discriminate)
                  eq_refl (or_introl eq_refl) eq_refl eq_refl eq_refl eq_refl).
    discriminate H.
Qed.

Lemma step_bonus_of_zero (t : Z) : step_bonus_of 0 t = Ok 0.
Proof.
  unfold step_bonus_of, int_truediv.
  destruct (Z.eqb_spec (Z.max t 1) 0) as [E|_]; [lia|].
  destruct (Z.max t 1) as [|b|b] eqn:E; try lia; reflexivity.
Qed.

(** C3, as the code has it.  [max(total_animation_steps, 1)] keeps the
    divisor positive: the call never raises [ZeroDivisionError], a
    non-positive [total_animation_steps] gives what 1 gives, and the call
    returns a mapping whenever [total_steps_viewed] is below [2^1000] in
    absolute value (beyond the range of a double the quotient raises
    [OverflowError]). *)
Theorem total_for_every_animation_steps (p : user_profile_dict) (t : Z) :
  calculate_skill_scores p t <> Err ZeroDivisionError /\
  (t <= 0 -> calculate_skill_scores p t = calculate_skill_scores p 1) /\
  (Z.abs (viewed_of p) < 2 ^ 1000 ->
   exists s, calculate_skill_scores p t = Ok s).
Proof.
  rewrite !calculate_skill_scores_eq. repeat split.
  - pose proof (step_bonus_of_no_zero_division (viewed_of p) t) as H.
    destruct (step_bonus_of (viewed_of p) t) as [sb|e]; cbn [bind];
      [discriminate|congruence].
  - intros Ht. unfold step_bonus_of.
    replace (Z.max t 1) with (Z.max 1 1) by lia. reflexivity.
  - intros Hv. destruct (step_bonus_of_total _ t Hv) as (sb & ->).
    cbn [bind]. eauto.
Qed.

Lemma total_for_every_animation_steps_witness :
  Z.abs (viewed_of {| total_steps_viewed := Some 40; marked_lines := Some [4];
                      questions_asked := None; question_topics := None;
                      completed_runs := Some 1 |}) < 2 ^ 1000 /\
  exists s,
    calculate_skill_scores
      {| total_steps_viewed := Some 40; marked_lines := Some [4];
         questions_asked := None; question_topics := None;
         completed_runs := Some 1 |} (-3) = Ok s.
Proof.
  split; [reflexivity|].
  apply (total_for_every_animation_steps
           {| total_steps_viewed := Some 40; marked_lines := Some [4];
              questions_asked := None; question_topics := None;
              completed_runs := Some 1 |} (-3)).
  reflexivity.
Defined.

(** C3 as stated fails: with [total_steps_viewed = 2^1024] the true
    division [total_viewed / 1] exceeds every double and raises. *)
Lemma total_for_every_animation_steps_counterexample :
  calculate_skill_scores
    {| total_steps_viewed := Some (2 ^ 1024); marked_lines := Some [];
       questions_asked := Some 0; question_topics := Some [];
       completed_runs := Some 0 |} 1
  = Err OverflowError /\
  ~ (forall (p : user_profile_dict) (t : Z),
        exists s, calculate_skill_scores p t = Ok s).
Proof.
  split; [vm_compute; reflexivity|].
  intros H.
  destruct (H {| total_steps_viewed := Some (2 ^ 1024); marked_lines := Some [];
                 questions_asked := Some 0; question_topics := Some [];
                 completed_runs := Some 0 |} 1) as (s & Hs).
  vm_compute in Hs. discriminate Hs.
Qed.

(** C7, as the code has it.  Absent fields read as 0 or the empty list:
    a dictionary and its completion by defaults get the same answer; a
    returned mapping has exactly the five topics of [KNOWLEDGE_MAP] as
    keys, in table order; a mapping is returned whenever
    [total_steps_viewed] is absent or below [2^1000] in absolute value;
    the dictionary without any field scores 0 everywhere. *)
Theorem missing_fields_default (p : user_profile_dict) (t : Z) :
  Z.abs (viewed_of p) < 2 ^ 1000 ->
  (exists s,
      calculate_skill_scores p t = Ok s /\
      dict_keys s = topic_names /\
      calculate_skill_scores (with_defaults p) t = Ok s) /\
  (total_steps_viewed p = None -> viewed_of p = 0) /\
  calculate_skill_scores empty_profile t
  = Ok (map (fun k => (k, 0)) topic_names).
Proof.
  intros Hv. split; [|split].
  - destruct (step_bonus_of_total _ t Hv) as (sb & Hsb).
    exists (scores_with p sb).
    split; [rewrite calculate_skill_scores_eq, Hsb; reflexivity|].
    split; [reflexivity|].
    rewrite calculate_skill_scores_eq.
    change (viewed_of (with_defaults p)) with (viewed_of p).
    rewrite Hsb. reflexivity.
  - unfold viewed_of. intros ->. reflexivity.
  - rewrite calculate_skill_scores_eq.
    change (viewed_of empty_profile) with 0.
    rewrite step_bonus_of_zero. reflexivity.
Qed.

Lemma missing_fields_default_witness :
  Z.abs (viewed_of {| total_steps_viewed := None; marked_lines := None;
                      questions_asked := None;
                      question_topics := Some ["分区操作"%string];
                      completed_runs := None |}) < 2 ^ 1000 /\
  exists s,
    calculate_skill_scores
      {| total_steps_viewed := None; marked_lines := None;
         questions_asked := None;
         question_topics := Some ["分区操作"%string];
         completed_runs := None |} 50 = Ok s /\
    dict_keys s = topic_names /\
    calculate_skill_scores
      (with_defaults
         {| total_steps_viewed := None; marked_lines := None;
            questions_asked := None;
            question_topics := Some ["分区操作"%string];
            completed_runs := None |}) 50 = Ok s.
Proof.
  split; [reflexivity|].
  apply (missing_fields_default
           {| total_steps_viewed := None; marked_lines := None;
              questions_asked := None;
              question_topics := Some ["分区操作"%string];
              completed_runs := None |} 50).
  reflexivity.
Defined.

(** C7 as stated fails: a dictionary that holds only
    [total_steps_viewed = -(2^1030)] gets no mapping at all. *)
Lemma missing_fields_default_counterexample :
  calculate_skill_scores
    {| total_steps_viewed := Some (- 2 ^ 1030); marked_lines := None;
       questions_asked := None; question_topics := None;
       completed_runs := None |} 50
  = Err OverflowError /\
  ~ (forall (p : user_profile_dict) (t : Z),
        exists s, calculate_skill_scores p t = Ok s /\
                  dict_keys s = topic_names).
Proof.
  split; [vm_compute; reflexivity|].
  intros H.
  destruct (H {| total_steps_viewed := Some (- 2 ^ 1030); marked_lines := None;
                 questions_asked := None; question_topics := None;
                 completed_runs := None |} 50) as (s & Hs & _).
  vm_compute in Hs. discriminate Hs.
Qed.

(** ** The claims about [generate_recommendations] *)

Section SortedFacts.
Context {A : Type} (key : A -> Z).

Lemma insert_by_key_perm (x : A) (l : list A) :
  Permutation (x :: l) (insert_by_key key x l).
Proof.
  induction l as [|y l IH]; simpl; [reflexivity|].
  destruct (key x <=? key y); [reflexivity|].
  rewrite perm_swap. now apply perm_skip.
Qed.

Lemma sorted_by_key_perm (l : list A) : Permutation l (sorted_by_key key l).
Proof.
  induction l as [|x l IH]; simpl; [reflexivity|].
  rewrite <- insert_by_key_perm. now apply perm_skip.
Qed.

Lemma insert_by_key_sorted (x : A) (l : list A) :
  StronglySorted (fun a b => key a <= key b) l ->
  StronglySorted (fun a b => key a <= key b) (insert_by_key key x l).
Proof.
  induction 1 as [|y l Hs IH Hy]; simpl.
  - constructor; constructor.
  - destruct (Z.leb_spec (key x) (key y)) as [Hxy|Hxy].
    + constructor; [now constructor|].
      constructor; [assumption|].
      eapply Forall_impl; [|exact Hy]. simpl. intros; lia.
    + constructor; [assumption|].
      eapply Permutation_Forall; [apply insert_by_key_perm|].
      constructor; [lia|assumption].
Qed.

Lemma sorted_by_key_sorted (l : list A) :
  StronglySorted (fun a b => key a <= key b) (sorted_by_key key l).
Proof.
  induction l as [|x l IH]; simpl; [constructor|].
  now apply insert_by_key_sorted.
Qed.

(** Stability: the elements of one key keep their input order. *)
Lemma insert_by_key_stable (v : Z) (x : A) (l : list A) :
  filter (fun a => key a =? v) (insert_by_key key x l)
  = filter (fun a => key a =? v) (x :: l).
Proof.
  induction l as [|y l IH]; [reflexivity|].
  cbn [insert_by_key].
  destruct (Z.leb_spec (key x) (key y)) as [Hxy|Hxy]; [reflexivity|].
  cbn [filter] in *. rewrite IH.
  destruct (Z.eqb_spec (key x) v); destruct (Z.eqb_spec (key y) v);
    try reflexivity; lia.
Qed.

Lemma sorted_by_key_stable (v : Z) (l : list A) :
  filter (fun a => key a =? v) (sorted_by_key key l)
  = filter (fun a => key a =? v) l.
Proof.
  induction l as [|x l IH]; [reflexivity|].
  cbn [sorted_by_key]. rewrite insert_by_key_stable.
  cbn [filter]. now rewrite IH.
Qed.
End SortedFacts.

(** Every resource of the knowledge graph has its three fields. *)
Lemma resource_complete (name : string) (resource : dict string) :
  dict_get KNOWLEDGE_GRAPH_RESOURCES name = Some resource ->
  exists n d tp,
    dict_get resource "next" = Some n /\
    dict_get resource "difficulty" = Some d /\
    dict_get resource "tip" = Some tp.
Proof.
  intros H. apply dict_get_In in H. simpl in H.
  repeat (destruct H as [H|H];
          [injection H as <- <-; do 3 eexists; repeat split; reflexivity|]).
  destruct H.
Qed.

Lemma recommendation_of_ok (name : string) (score : Z) :
  exists rec, recommendation_of name score = Ok rec /\ record_of (name, score) rec.
Proof.
  unfold recommendation_of, record_of, dict_contains, dict_getitem.
  cbn [fst snd]. destruct (tag_of score) as [tag tag_class]. cbn [fst snd].
  destruct (dict_get KNOWLEDGE_GRAPH_RESOURCES name) as [resource|] eqn:E.
  - destruct (resource_complete name resource E) as (n & d & tp & Hn & Hd & Ht).
    cbn [bind]. rewrite Hn. cbn [bind]. rewrite Hd. cbn [bind]. rewrite Ht.
    cbn [bind]. eexists. split; [reflexivity|].
    repeat split; try reflexivity; discriminate.
  - eexists. split; [reflexivity|]. repeat split; reflexivity.
Qed.

Lemma collect_recommendations_ok (items : list (string * Z)) :
  exists recs, collect_recommendations items = Ok recs /\ Forall2 record_of items recs.
Proof.
  induction items as [|[name score] items (recs & E & IH)]; simpl.
  - exists []. split; [reflexivity|constructor].
  - destruct (recommendation_of_ok name score) as (rec & -> & Hrec).
    rewrite E. cbn [bind]. exists (rec :: recs).
    split; [reflexivity|now constructor].
Qed.

Lemma tag_of_spec (score : Z) : tier_label_spec score (fst (tag_of score)).
Proof.
  unfold tier_label_spec, tag_of.
  destruct (Z.geb_spec score 70); [simpl; repeat split; intros; reflexivity || lia|].
  destruct (Z.geb_spec score 40); simpl; repeat split; intros; reflexivity || lia.
Qed.

(** C6. [generate_recommendations] sorts the topics by ascending score,
    equal scores keeping the entry order of the mapping, keeps the first
    [top_n] of them (5 when the argument is left out), and labels each
    record with the tier of its score; on [{A:80, B:30, C:55}] with the
    default limit it answers B(30), C(55), A(80) with the tiers priority
    focus, needs reinforcement, proficient. *)
Theorem recommendations_sorted_and_labelled (skill_scores : dict Z) (top_n : Z) :
  (0 <= top_n ->
   exists recs,
     generate_recommendations skill_scores top_n = Ok recs /\
     Permutation skill_scores (sorted_by_key snd skill_scores) /\
     StronglySorted score_le (sorted_by_key snd skill_scores) /\
     (forall v, with_score v (sorted_by_key snd skill_scores)
                = with_score v skill_scores) /\
     Forall2 (fun kv rec =>
                dict_get rec "knowledge" = Some (VStr (fst kv)) /\
                dict_get rec "score" = Some (VInt (snd kv)) /\
                exists label, dict_get rec "tag" = Some (VStr label) /\
                              tier_label_spec (snd kv) label)
             (firstn (Z.to_nat top_n) (sorted_by_key snd skill_scores)) recs) /\
  generate_recommendations_default skill_scores
  = generate_recommendations skill_scores 5 /\
  option_map
    (map (fun rec => (dict_get rec "knowledge", dict_get rec "score",
                      dict_get rec "tag")))
    (match generate_recommendations_default [("A", 80); ("B", 30); ("C", 55)]%string with
     | Ok recs => Some recs
     | Err _ => None
     end)
  = Some [ (Some (VStr "B"), Some (VInt 30), Some (VStr "建议重点学习"));
           (Some (VStr "C"), Some (VInt 55), Some (VStr "需要加强"));
           (Some (VStr "A"), Some (VInt 80), Some (VStr "掌握良好")) ]%string.
Proof.
  split; [|split; reflexivity].
  intros Hn. unfold generate_recommendations, slice_to.
  destruct (Z.leb_spec 0 top_n) as [_|]; [|lia].
  destruct (collect_recommendations_ok
              (firstn (Z.to_nat top_n) (sorted_by_key snd skill_scores)))
    as (recs & E & H).
  exists recs. split; [exact E|].
  split; [apply sorted_by_key_perm|].
  split; [apply sorted_by_key_sorted|].
  split; [intros v; apply sorted_by_key_stable|].
  eapply Forall2_impl; [|exact H].
  intros kv rec (Hk & Hs & Ht & _). repeat split; try assumption.
  eexists. split; [exact Ht|apply tag_of_spec].
Qed.

Lemma recommendations_sorted_and_labelled_witness :
  0 <= 2 /\
  exists recs,
    generate_recommendations
      [("分治思想", 40); ("基准选择", 20); ("分区操作", 40);
       ("递归调用", 20); ("复杂度分析", 75)]%string 2 = Ok recs /\
    map (fun rec => dict_get rec "knowledge") recs
    = [Some (VStr "基准选择"); Some (VStr "递归调用")]%string.
Proof.
  split; [lia|].
  destruct (proj1 (recommendations_sorted_and_labelled
                     [("分治思想", 40); ("基准选择", 20); ("分区操作", 40);
                      ("递归调用", 20); ("复杂度分析", 75)]%string 2))
    as (recs & E & _); [lia|].
  exists recs. split; [exact E|].
  vm_compute in E. injection E as <-. reflexivity.
Defined.

(** C10. [generate_recommendations] answers on every mapping and every
    limit: the empty mapping gives the empty list, and each kept topic
    gives a record, whose advice is the empty string for a name outside
    [ADVICE_MAP] and which has no [next_topic], [next_difficulty] or
    [next_tip] for a name outside [KNOWLEDGE_GRAPH_RESOURCES]. *)
Theorem recommendations_total (skill_scores : dict Z) (top_n : Z) :
  generate_recommendations [] top_n = Ok [] /\
  exists recs,
    generate_recommendations skill_scores top_n = Ok recs /\
    Forall2 (fun kv rec =>
               dict_get rec "knowledge" = Some (VStr (fst kv)) /\
               (dict_get ADVICE_MAP (fst kv) = None ->
                dict_get rec "advice" = Some (VStr EmptyString)) /\
               (dict_contains KNOWLEDGE_GRAPH_RESOURCES (fst kv) = false ->
                dict_get rec "next_topic" = None /\
                dict_get rec "next_difficulty" = None /\
                dict_get rec "next_tip" = None))
            (slice_to (sorted_by_key snd skill_scores) top_n) recs.
Proof.
  split.
  - unfold generate_recommendations, slice_to. simpl sorted_by_key.
    destruct (0 <=? top_n); rewrite firstn_nil; reflexivity.
  - unfold generate_recommendations.
    destruct (collect_recommendations_ok
                (slice_to (sorted_by_key snd skill_scores) top_n))
      as (recs & E & H).
    exists recs. split; [exact E|].
    eapply Forall2_impl; [|exact H].
    intros kv rec (Hk & _ & _ & _ & Ha & Hn).
    split; [exact Hk|]. split; [|exact Hn].
    intros Hnone. rewrite Ha. unfold dict_get_default. rewrite Hnone. reflexivity.
Qed.

(** ** The claim about the chat matcher *)

Lemma overlap_nonneg (q : string) (e : qa_entry) : 0 <= overlap q e.
Proof. apply sum_ones_if_nonneg. Qed.

(** The scan either keeps its accumulator, when no entry beats it, or
    ends on the first entry with the highest overlap. *)
Lemma scan_entries_spec (q : string) (kb : list qa_entry) :
  forall (b : Z) (best : option qa_entry),
    ((forall e, In e kb -> overlap q e <= b) /\
     scan_entries q kb b best = (b, best)) \/
    (exists i e, first_best q kb i e /\ b < overlap q e /\
                 scan_entries q kb b best = (overlap q e, Some e)).
Proof.
  assert (Hcons : forall e l i e2,
             first_best q l i e2 -> overlap q e < overlap q e2 ->
             first_best q (e :: l) (S i) e2).
  { intros e l i e2 (Hn & Hmax & Hfirst) Hlt. split; [exact Hn|split].
    - intros e' [<-|Hin]; [lia|auto].
    - intros [|j] e' Hj He'; simpl in He'.
      + injection He' as <-. exact Hlt.
      + apply (Hfirst j); [lia|assumption]. }
  induction kb as [|e kb IH]; intros b best.
  - left. split; [intros e []|reflexivity].
  - cbn [scan_entries].
    destruct (Z.gtb_spec (overlap q e) b) as [Hgt|Hle].
    + right.
      destruct (IH (overlap q e) (Some e))
        as [(Hall & ->)|(i & e2 & Hfb & Hlt & ->)].
      * exists 0%nat, e. split; [|split; [lia|reflexivity]].
        split; [reflexivity|split].
        -- intros e' [<-|Hin]; [lia|auto].
        -- intros j e' Hj. lia.
      * exists (S i), e2. split; [|split; [lia|reflexivity]].
        now apply Hcons.
    + destruct (IH b best) as [(Hall & ->)|(i & e2 & Hfb & Hlt & ->)].
      * left. split; [|reflexivity]. intros e' [<-|Hin]; [lia|auto].
      * right. exists (S i), e2. split; [|split; [lia|reflexivity]].
        apply Hcons; [assumption|lia].
Qed.

(** C8. When no entry of the knowledge base shares a keyword with the
    question, [match_answer] gives the fallback answer with the empty
    topic; otherwise it gives the answer and the topic of the first entry
    that reaches the highest overlap. *)
Theorem match_answer_first_best (kb : list qa_entry) (fallback q : string) :
  ((forall e, In e kb -> overlap q e = 0) ->
   match_answer kb fallback q = (fallback, EmptyString)) /\
  ((exists e, In e kb /\ overlap q e <> 0) ->
   exists i e, first_best q kb i e /\
               match_answer kb fallback q = (answer e, topic e)).
Proof.
  unfold match_answer.
  destruct (scan_entries_spec q kb 0 None)
    as [(Hall & ->)|(i & e & Hfb & Hlt & ->)]; cbn [snd]; split.
  - reflexivity.
  - intros (e & Hin & Hne). pose proof (Hall e Hin). pose proof (overlap_nonneg q e). lia.
  - intros Hzero. destruct Hfb as (Hn & _). apply nth_error_In in Hn.
    rewrite (Hzero e Hn) in Hlt. lia.
  - intros _. exists i, e. split; [exact Hfb|reflexivity].
Qed.

Lemma match_answer_first_best_witness :
  match_answer sample_kb "抱歉，我暂时无法回答这个问题。" "今天天气如何"
  = ("抱歉，我暂时无法回答这个问题。"%string, EmptyString) /\
  exists i e, first_best "我不理解基准选择" sample_kb i e /\
              match_answer sample_kb "抱歉，我暂时无法回答这个问题。" "我不理解基准选择"
              = (answer e, topic e).
Proof.
  split.
  - apply (proj1 (match_answer_first_best sample_kb
                    "抱歉，我暂时无法回答这个问题。" "今天天气如何")).
    intros e [<-|[<-|[]]]; reflexivity.
  - apply (proj2 (match_answer_first_best sample_kb
                    "抱歉，我暂时无法回答这个问题。" "我不理解基准选择")).
    eexists. split; [left; reflexivity|]. discriminate.
Defined.

Lemma recommendations_total_witness :
  exists rec,
    generate_recommendations [("链表"%string, 12)] 5 = Ok [rec] /\
    dict_get rec "advice" = Some (VStr EmptyString) /\
    dict_get rec "next_topic" = None /\
    dict_get rec "next_difficulty" = None /\
    dict_get rec "next_tip" = None.
Proof.
  destruct (proj2 (recommendations_total [("链表"%string, 12)] 5))
    as (recs & E & H).
  change (slice_to (sorted_by_key snd [("链表"%string, 12)]) 5)
    with [("链表"%string, 12)] in H.
  inversion H as [|kv rec l l' (Hk & Ha & Hn) Hrest]; subst.
  inversion Hrest; subst.
  exists rec. split; [exact E|].
  split; [apply Ha; reflexivity|apply Hn; reflexivity].
Defined.

(** ** Further properties of the scorer and the recommender *)

Lemma scores_with_le (p1 p2 : user_profile_dict) (sb1 sb2 : Z) :
  (forall T lines, dict_get KNOWLEDGE_MAP T = Some lines ->
                   raw_score_of p1 sb1 T lines <= raw_score_of p2 sb2 T lines) ->
  scores_le (scores_with p1 sb1) (scores_with p2 sb2).
Proof.
  intros H T x1. rewrite !scores_with_get.
  destruct (dict_get KNOWLEDGE_MAP T) as [lines|] eqn:E; [|discriminate].
  simpl. intros [= <-]. eexists. split; [reflexivity|].
  specialize (H T lines E). unfold clamp. lia.
Qed.

Lemma with_completed_runs_raw (p : user_profile_dict) (c sb : Z) (T : string) (lines : list Z) :
  raw_score_of (with_completed_runs p c) sb T lines
  = raw_score_of p sb T lines - complete_of p + Z.min 30 (c * 15).
Proof.
  unfold raw_score_of, topic_raw_score.
  change (base_of (with_completed_runs p c)) with (base_of p).
  change (marks_of (with_completed_runs p c)) with (marks_of p).
  change (topics_of (with_completed_runs p c)) with (topics_of p).
  change (complete_of (with_completed_runs p c)) with (Z.min 30 (c * 15)).
  destruct (str_in_list T (topics_of p)); destruct (String.eqb T _); lia.
Qed.

(** X1. All else equal, a larger [completed_runs] never lowers any
    score, and from two completed runs on nothing changes any more: the
    bonus of 15 per run is capped at 30. *)
Theorem completed_runs_monotone (p : user_profile_dict) (c1 c2 t : Z) (s1 : dict Z) :
  c1 <= c2 ->
  calculate_skill_scores (with_completed_runs p c1) t = Ok s1 ->
  exists s2,
    calculate_skill_scores (with_completed_runs p c2) t = Ok s2 /\
    scores_le s1 s2 /\
    (2 <= c1 -> s2 = s1).
Proof.
  intros Hc H. apply calculate_skill_scores_inv in H as (sb & Hsb & ->).
  change (viewed_of (with_completed_runs p c1)) with (viewed_of p) in Hsb.
  exists (scores_with (with_completed_runs p c2) sb).
  split; [|split].
  - rewrite calculate_skill_scores_eq.
    change (viewed_of (with_completed_runs p c2)) with (viewed_of p).
    rewrite Hsb. reflexivity.
  - apply scores_with_le. intros T lines _.
    rewrite !with_completed_runs_raw. lia.
  - intros H2. unfold scores_with. apply map_ext. intros [T lines]. cbn [fst snd].
    rewrite !with_completed_runs_raw. do 3 f_equal. lia.
Qed.

Lemma sum_ones_if_nil_lines (ml : list Z) :
  sum_ones_if (fun ln => int_in_list ln []) ml = 0.
Proof. induction ml as [|y l IH]; simpl; [reflexivity|exact IH]. Qed.

(** X2. Marking further lines never raises any score, and no mark
    ever changes the score of '复杂度分析', which owns no line. *)
Theorem marks_never_raise (p : user_profile_dict) (ml extra : list Z) (t : Z)
    (s : dict Z) :
  calculate_skill_scores (with_marked_lines p ml) t = Ok s ->
  exists s',
    calculate_skill_scores (with_marked_lines p (ml ++ extra)) t = Ok s' /\
    scores_le s' s /\
    dict_get s' complexity_topic = dict_get s complexity_topic.
Proof.
  intros H. apply calculate_skill_scores_inv in H as (sb & Hsb & ->).
  rewrite with_marked_lines_viewed in Hsb.
  exists (scores_with (with_marked_lines p (ml ++ extra)) sb).
  split; [|split].
  - rewrite calculate_skill_scores_eq, with_marked_lines_viewed, Hsb. reflexivity.
  - apply scores_with_le. intros T lines _.
    unfold raw_score_of, topic_raw_score. same_fields.
    rewrite sum_ones_if_app.
    pose proof (sum_ones_if_nonneg (fun ln => int_in_list ln lines) extra).
    destruct (str_in_list T (topics_of p)); destruct (String.eqb T _); lia.
  - rewrite !scores_with_get. simpl option_map. do 2 f_equal.
    unfold raw_score_of, topic_raw_score. same_fields.
    rewrite !sum_ones_if_nil_lines. reflexivity.
Qed.

(** X3. A topic with code lines never scores above 85, and never
    above 70 when the profile has no question on it: the clamp at 100
    can only act on '复杂度分析'. *)
Theorem line_topics_at_most_85 (p : user_profile_dict) (t : Z) (s : dict Z)
    (T : string) (lines : list Z) :
  calculate_skill_scores p t = Ok s ->
  dict_get KNOWLEDGE_MAP T = Some lines -> lines <> [] ->
  exists x, dict_get s T = Some x /\ x <= 85 /\
            (str_in_list T (topics_of p) = false -> x <= 70).
Proof.
  intros H HT Hne. apply calculate_skill_scores_inv in H as (sb & Hsb & ->).
  pose proof (step_bonus_of_le _ _ _ Hsb) as Hle.
  destruct lines as [|L lines']; [congruence|].
  pose proof (lines_nonempty_not_complexity T _ L HT (or_introl eq_refl)) as HC.
  pose proof (raw_score_le_85 p sb T (L :: lines') Hle HC) as H85.
  rewrite scores_with_get, HT. simpl option_map.
  eexists. split; [reflexivity|]. split; [unfold clamp; lia|].
  intros Hq. revert H85. unfold raw_score_of, topic_raw_score, clamp.
  rewrite HC, Hq.
  pose proof (sum_ones_if_nonneg (fun ln => int_in_list ln (L :: lines')) (marks_of p)).
  unfold base_of, complete_of. destruct (viewed_of p >? 0); lia.
Qed.

Lemma shr_fexp_nonneg (m e : Z) (l : location) :
  0 <= m -> 0 <= shr_m (fst (shr_fexp prec emax m e l)).
Proof.
  intros Hm. unfold shr_fexp.
  destruct (fexp prec emax (Zdigits2 m + e) - e) as [|p|p]; simpl;
    rewrite ?shr_m_iter, ?shr_m_of_loc; rewrite ?shr_m_of_loc; try assumption.
  apply Z.div_pos; [assumption|]. apply Z.pow_pos_nonneg; lia.
Qed.

Lemma binary_round_aux_sign (sx : bool) (mx ex : Z) (lx : location) :
  0 <= mx -> has_sign sx (binary_round_aux prec emax sx mx ex lx).
Proof.
  intros Hm. unfold binary_round_aux.
  pose proof (shr_fexp_nonneg mx ex lx Hm) as H1.
  destruct (shr_fexp prec emax mx ex lx) as [mrs1 e1]. cbn [fst] in H1.
  pose proof (round_nearest_even_bound (shr_m mrs1) (loc_of_shr_record mrs1)) as Hr.
  pose proof (shr_fexp_nonneg (round_nearest_even (shr_m mrs1) (loc_of_shr_record mrs1))
                e1 loc_Exact ltac:(lia)) as H2.
  destruct (shr_fexp prec emax _ e1 loc_Exact) as [mrs2 e2]. cbn [fst] in H2.
  destruct (shr_m mrs2) as [|m3|m3]; [reflexivity| |lia].
  destruct (e2 <=? emax - prec); reflexivity.
Qed.

Lemma int_truediv_sign (a b : Z) (q : spec_float) :
  0 < b -> int_truediv a b = Ok q -> has_sign (a <? 0) q.
Proof.
  intros Hb. unfold int_truediv.
  destruct (Z.eqb_spec b 0); [lia|].
  destruct b as [|pb|pb]; try lia.
  assert (H : has_sign (a <? 0) (SFdiv prec emax (exact_int a) (exact_int (Zpos pb)))).
  { destruct a as [|pa|pa]; simpl exact_int; [reflexivity| |].
    - unfold SFdiv, SFdiv_core_binary.
      set (m' := match _ with Z0 => Zpos pa | Zpos _ => Z.shiftl (Zpos pa) _ | Zneg _ => 0 end).
      assert (Hm' : 0 <= m').
      { subst m'. destruct (0 - 0 - _); try lia. apply Z.shiftl_nonneg. lia. }
      pose proof (Z.div_pos m' (Zpos pb) Hm' ltac:(lia)) as Hq.
      unfold Z.div in Hq. destruct (Z.div_eucl m' (Zpos pb)) as [q0 r0].
      apply binary_round_aux_sign. exact Hq.
    - unfold SFdiv, SFdiv_core_binary.
      set (m' := match _ with Z0 => Zpos pa | Zpos _ => Z.shiftl (Zpos pa) _ | Zneg _ => 0 end).
      assert (Hm' : 0 <= m').
      { subst m'. destruct (0 - 0 - _); try lia. apply Z.shiftl_nonneg. lia. }
      pose proof (Z.div_pos m' (Zpos pb) Hm' ltac:(lia)) as Hq.
      unfold Z.div in Hq. destruct (Z.div_eucl m' (Zpos pb)) as [q0 r0].
      apply binary_round_aux_sign. exact Hq. }
  destruct (SFdiv _ _ _ _); try discriminate; intros [= <-]; exact H.
Qed.

Lemma round_half_even_nonneg (m e : Z) : 0 <= m -> 0 <= round_half_even m e.
Proof.
  intros Hm. unfold round_half_even.
  destruct (0 <=? e).
  - apply Z.mul_nonneg_nonneg; [assumption|]. apply Z.pow_nonneg. lia.
  - assert (0 <= m / 2 ^ (- e)).
    { destruct (Z.eq_dec (2 ^ (- e)) 0) as [->|Hne].
      - rewrite Z.div_0_r. lia.
      - apply Z.div_pos; [assumption|]. pose proof (Z.pow_nonneg 2 (- e)). lia. }
    destruct (2 * (m mod 2 ^ (- e)) ?= 2 ^ (- e)); try lia.
    destruct (Z.even _); lia.
Qed.

(** The scaled ratio has the sign of [total_viewed]; it is never NaN. *)
Lemma scaled_ratio_sign (v b : Z) (q : spec_float) :
  0 < b -> int_truediv v b = Ok q ->
  has_sign (v <? 0) (SFmul prec emax q (S754_finite false 8444249301319680 (-48))).
Proof.
  intros Hb Eq. apply int_truediv_sign in Eq; [|exact Hb].
  destruct q as [s|s| |s m e]; simpl in Eq; try contradiction; subst s.
  - simpl. destruct (v <? 0); reflexivity.
  - simpl. destruct (v <? 0); reflexivity.
  - unfold SFmul. rewrite xorb_false_r. apply binary_round_aux_sign. lia.
Qed.

(** X4. Whenever the float computation of the step bonus returns, the
    bonus is at most 30, is not negative for a non-negative count of
    viewed steps and is not positive for a non-positive one. *)
Theorem step_bonus_sign (v t sb : Z) :
  step_bonus_of v t = Ok sb ->
  sb <= 30 /\ (0 <= v -> 0 <= sb) /\ (v <= 0 -> sb <= 0).
Proof.
  intros H. split; [exact (step_bonus_of_le _ _ _ H)|].
  destruct (Z.eq_dec v 0) as [->|Hv0].
  { rewrite step_bonus_of_zero in H. injection H as <-. lia. }
  revert H. unfold step_bonus_of.
  destruct (int_truediv v (Z.max t 1)) as [q|] eqn:Eq; cbn [bind]; [|discriminate].
  pose proof (scaled_ratio_sign v (Z.max t 1) q ltac:(lia) Eq) as Hs.
  unfold float_mul_int. rewrite float_of_int_30. cbn [bind].
  destruct (SFmul _ _ _ _) as [s|s| |s m e]; simpl in Hs; try contradiction;
    cbn [float_round bind]; try discriminate; intros [= <-]; subst s.
  - lia.
  - pose proof (round_half_even_nonneg (Zpos m) e ltac:(lia)).
    destruct (Z.ltb_spec v 0); cbn [cond_Zopp]; split; intros; lia.
Qed.

Lemma step_bonus_sign_witness :
  step_bonus_of (-7) 3 = Ok (-70) /\
  -70 <= 30 /\ (0 <= -7 -> 0 <= -70) /\ (-7 <= 0 -> -70 <= 0).
Proof.
  split; [reflexivity|]. apply (step_bonus_sign (-7) 3 (-70)). reflexivity.
Defined.

Lemma step_bonus_of_error (v t : Z) (e : py_error) :
  step_bonus_of v t = Err e -> e = OverflowError.
Proof.
  unfold step_bonus_of.
  destruct (int_truediv v (Z.max t 1)) as [q|e0] eqn:Eq; cbn [bind].
  - pose proof (scaled_ratio_sign v (Z.max t 1) q ltac:(lia) Eq) as Hs.
    unfold float_mul_int. rewrite float_of_int_30. cbn [bind].
    destruct (SFmul _ _ _ _) as [s|s| |s m e']; simpl in Hs; try contradiction;
      cbn [float_round bind]; try discriminate.
    intros [= <-]. reflexivity.
  - revert Eq. unfold int_truediv.
    destruct (Z.eqb_spec (Z.max t 1) 0); [lia|].
    destruct (SFdiv _ _ _ _); try discriminate.
    intros [= <-] [= <-]. reflexivity.
Qed.

(** The scorer raises nothing but [OverflowError], and only on a
    count of viewed steps of 1000 bits or more. *)
Lemma only_overflow_bound (p : user_profile_dict) (t : Z) (e : py_error) :
  calculate_skill_scores p t = Err e ->
  e = OverflowError /\ 2 ^ 1000 <= Z.abs (viewed_of p).
Proof.
  rewrite calculate_skill_scores_eq. intros H. split.
  - destruct (step_bonus_of (viewed_of p) t) as [sb|e0] eqn:E; cbn [bind] in H;
      [discriminate|].
    injection H as <-. exact (step_bonus_of_error _ _ _ E).
  - destruct (Z.lt_ge_cases (Z.abs (viewed_of p)) (2 ^ 1000)) as [Hlt|Hge]; [|exact Hge].
    destruct (step_bonus_of_total _ t Hlt) as (sb & E).
    rewrite E in H. discriminate.
Qed.

(** X6. The one exception [calculate_skill_scores] raises is
    [OverflowError], and only for a [total_steps_viewed] of at least
    [2^1000] in absolute value: never [ZeroDivisionError], never the
    [ValueError] of rounding a NaN, never [KeyError]. *)
Theorem only_overflow_is_raised (p : user_profile_dict) (t : Z) (e : py_error) :
  calculate_skill_scores p t = Err e ->
  e = OverflowError /\
  2 ^ 1000 <= Z.abs (viewed_of p) /\
  calculate_skill_scores p t <> Err ZeroDivisionError /\
  calculate_skill_scores p t <> Err ValueError /\
  calculate_skill_scores p t <> Err KeyError.
Proof.
  intros H. destruct (only_overflow_bound p t e H) as (-> & Hb).
  split; [reflexivity|]. split; [exact Hb|].
  rewrite H. repeat split; discriminate.
Qed.

Lemma only_overflow_is_raised_witness :
  calculate_skill_scores
    {| total_steps_viewed := Some (2 ^ 1023); marked_lines := None;
       questions_asked := None; question_topics := None;
       completed_runs := None |} 7 = Err OverflowError /\
  OverflowError = OverflowError /\
  2 ^ 1000 <= Z.abs (viewed_of
                       {| total_steps_viewed := Some (2 ^ 1023); marked_lines := None;
                          questions_asked := None; question_topics := None;
                          completed_runs := None |}).
Proof.
  split; [vm_compute; reflexivity|].
  refine ((fun H => conj (proj1 H) (proj1 (proj2 H))) _).
  apply (only_overflow_is_raised
           {| total_steps_viewed := Some (2 ^ 1023); marked_lines := None;
              questions_asked := None; question_topics := None;
              completed_runs := None |} 7 OverflowError).
  vm_compute. reflexivity.
Defined.

Lemma ge_int_pos (c m e : Z) : 1 <= c -> 0 <= m -> ge_int c m e -> 0 < m.
Proof.
  unfold ge_int. intros Hc Hm.
  destruct (Z.leb_spec 0 e) as [He|He]; intros H.
  - destruct (Z.eq_dec m 0) as [->|]; lia.
  - assert (0 < 2 ^ (- e)) by (apply Z.pow_pos_nonneg; lia). nia.
Qed.

Lemma ge_int_mono (c m m' e : Z) : m <= m' -> ge_int c m e -> ge_int c m' e.
Proof.
  unfold ge_int. intros Hm. destruct (0 <=? e); intros H; [|lia].
  pose proof (Z.pow_nonneg 2 e ltac:(lia)). nia.
Qed.

Lemma Zdigits2_lower (m : Z) : 0 < m -> 2 ^ (Zdigits2 m - 1) <= m.
Proof.
  intros Hm. destruct m as [|p|p]; try lia.
  unfold Zdigits2. rewrite Zdigits2_log2.
  replace (Z.log2 (Zpos p) + 1 - 1) with (Z.log2 (Zpos p)) by lia.
  apply Z.log2_spec. lia.
Qed.

Lemma shr_fexp_ge (c m e : Z) (l : location) (mrs : shr_record) (e' : Z) :
  1 <= c <= 2 ^ 52 -> 0 < m -> ge_int c m e ->
  shr_fexp prec emax m e l = (mrs, e') ->
  ge_int c (shr_m mrs) e'.
Proof.
  intros Hc Hm Hge. unfold shr_fexp. rewrite fexp_64.
  pose proof (Zdigits2_lower m Hm) as Hlow.
  pose proof (Zdigits2_nonneg m) as Hd.
  set (d := Zdigits2 m) in *.
  destruct (Z.max (d + e - 53) (-1074) - e) as [|p|p] eqn:En; simpl shr;
    intros [= <- <-]; rewrite ?shr_m_of_loc; try exact Hge.
  rewrite shr_m_iter by (rewrite shr_m_of_loc; lia). rewrite shr_m_of_loc.
  assert (Hp : 0 < 2 ^ Zpos p) by (apply Z.pow_pos_nonneg; lia).
  unfold ge_int in *.
  destruct (Z.leb_spec 0 (e + Zpos p)) as [He1|He1].
  - destruct (Z.eq_dec (e + Zpos p) 0) as [E0|E0].
    + rewrite E0. rewrite Z.pow_0_r, Z.mul_1_r.
      destruct (Z.leb_spec 0 e) as [He|He]; [lia|].
      replace (- e) with (Zpos p) in Hge by lia.
      apply Z.div_le_lower_bound; lia.
    + assert (Hp53 : Zpos p = d - 53) by lia.
      assert (H52 : 2 ^ 52 <= m / 2 ^ Zpos p).
      { apply Z.div_le_lower_bound; [lia|].
        rewrite <- Z.pow_add_r by lia.
        replace (Zpos p + 52) with (d - 1) by lia. exact Hlow. }
      assert (0 < 2 ^ (e + Zpos p)) by (apply Z.pow_pos_nonneg; lia).
      nia.
  - destruct (Z.leb_spec 0 e) as [He|He]; [lia|].
    apply Z.div_le_lower_bound; [lia|].
    replace (- e) with (- (e + Zpos p) + Zpos p) in Hge by lia.
    rewrite Z.pow_add_r in Hge by lia. lia.
Qed.

Lemma binary_round_aux_ge (c : Z) (sx : bool) (mx ex : Z) (lx : location) :
  1 <= c <= 2 ^ 52 -> 0 < mx -> ge_int c mx ex ->
  binary_round_aux prec emax sx mx ex lx = S754_infinity sx \/
  exists m e, binary_round_aux prec emax sx mx ex lx = S754_finite sx m e /\
              ge_int c (Zpos m) e.
Proof.
  intros Hc Hm Hge. unfold binary_round_aux.
  pose proof (shr_fexp_nonneg mx ex lx ltac:(lia)) as H0.
  destruct (shr_fexp prec emax mx ex lx) as [mrs1 e1] eqn:E1. cbn [fst] in H0.
  pose proof (shr_fexp_ge c mx ex lx mrs1 e1 Hc Hm Hge E1) as H1.
  pose proof (round_nearest_even_bound (shr_m mrs1) (loc_of_shr_record mrs1)) as Hr.
  set (m2 := round_nearest_even (shr_m mrs1) (loc_of_shr_record mrs1)) in *.
  assert (H2 : ge_int c m2 e1) by (eapply ge_int_mono; [|exact H1]; lia).
  assert (Hm2 : 0 < m2) by (eapply ge_int_pos; [| |exact H2]; lia).
  destruct (shr_fexp prec emax m2 e1 loc_Exact) as [mrs2 e2] eqn:E2.
  pose proof (shr_fexp_ge c m2 e1 loc_Exact mrs2 e2 Hc Hm2 H2 E2) as H3.
  pose proof (shr_fexp_nonneg m2 e1 loc_Exact ltac:(lia)) as H4.
  rewrite E2 in H4. cbn [fst] in H4.
  pose proof (ge_int_pos c _ _ ltac:(lia) H4 H3) as H5.
  destruct (shr_m mrs2) as [|m3|m3]; try lia.
  destruct (e2 <=? emax - prec); [right; eauto|now left].
Qed.

Lemma round_half_even_ge (c m e : Z) : 0 <= m -> ge_int c m e -> c <= round_half_even m e.
Proof.
  unfold ge_int, round_half_even. intros Hm.
  destruct (Z.leb_spec 0 e) as [He|He]; intros H; [exact H|].
  assert (Hp : 0 < 2 ^ (- e)) by (apply Z.pow_pos_nonneg; lia).
  assert (c <= m / 2 ^ (- e)) by (apply Z.div_le_lower_bound; lia).
  destruct (2 * (m mod 2 ^ (- e)) ?= 2 ^ (- e)); try lia.
  destruct (Z.even _); lia.
Qed.

(** X5. Once the viewed steps reach [max(total_animation_steps, 1)],
    the step bonus is exactly the cap 30, whatever the rounding of the
    float quotient and of its product with 30. *)
Theorem step_bonus_full (v t sb : Z) :
  Z.max t 1 <= v -> step_bonus_of v t = Ok sb -> sb = 30.
Proof.
  intros Hv. unfold step_bonus_of, int_truediv.
  destruct (Z.eqb_spec (Z.max t 1) 0); [lia|].
  destruct (Z.max t 1) as [|pb|pb] eqn:Eb; try lia.
  destruct v as [|pa|pa]; try lia. cbn [exact_int].
  assert (Hq : SFdiv prec emax (S754_finite false pa 0) (S754_finite false pb 0)
               = S754_infinity false \/
               exists m e, SFdiv prec emax (S754_finite false pa 0) (S754_finite false pb 0)
                           = S754_finite false m e /\ ge_int 1 (Zpos m) e).
  { unfold SFdiv, SFdiv_core_binary. rewrite fexp_64.
    set (e' := Z.min _ (0 - 0)).
    assert (He' : e' <= 0) by (subst e'; lia).
    set (m' := match 0 - 0 - e' with Z0 => Zpos pa | Zpos _ => Z.shiftl (Zpos pa) (0 - 0 - e') | Zneg _ => 0 end).
    assert (Hm' : m' = Zpos pa * 2 ^ (- e')).
    { subst m'. replace (0 - 0 - e') with (- e') by lia.
      destruct (- e') as [|p|p] eqn:Ee; try lia.
      rewrite Z.shiftl_mul_pow2 by lia. reflexivity. }
    clearbody m' e'.
    assert (Hp : 0 < 2 ^ (- e')) by (apply Z.pow_pos_nonneg; lia).
    assert (Hq : 2 ^ (- e') <= m' / Zpos pb).
    { apply Z.div_le_lower_bound; [lia|]. nia. }
    unfold Z.div in Hq. destruct (Z.div_eucl m' (Zpos pb)) as [q r].
    apply (binary_round_aux_ge 1); [split; [lia|discriminate]|lia|].
    unfold ge_int. destruct (Z.leb_spec 0 e'); [|lia].
    replace e' with 0 in * by lia. simpl in *. lia. }
  destruct Hq as [->|(m & e & -> & Hge)]; cbn [bind]; [discriminate|].
  unfold float_mul_int. rewrite float_of_int_30. cbn [bind]. unfold SFmul.
  assert (Hge30 : ge_int 30 (Zpos (m * 8444249301319680)) (e + -48)).
  { unfold ge_int in *. rewrite Pos2Z.inj_mul.
    change 8444249301319680 with (30 * 2 ^ 48).
    destruct (Z.leb_spec 0 e) as [He|He].
    - assert (0 < 2 ^ e) by (apply Z.pow_pos_nonneg; lia).
      destruct (Z.leb_spec 0 (e + -48)) as [He2|He2].
      + replace e with (48 + (e + -48)) in Hge by lia.
        rewrite Z.pow_add_r in Hge by lia.
        assert (0 < 2 ^ (e + -48)) by (apply Z.pow_pos_nonneg; lia).
        nia.
      + assert (2 ^ (- (e + -48)) <= 2 ^ 48) by (apply Z.pow_le_mono_r; lia).
        nia.
    - destruct (Z.leb_spec 0 (e + -48)) as [He2|He2]; [lia|].
      replace (- (e + -48)) with (- e + 48) by lia.
      rewrite Z.pow_add_r by lia. nia. }
  destruct (binary_round_aux_ge 30 (xorb false false)
              (Zpos (m * 8444249301319680)) (e + -48) loc_Exact
              ltac:(split; [lia|discriminate]) ltac:(lia) Hge30)
    as [->|(m2 & e2 & -> & Hge2)].
  - cbn [bind float_round]. discriminate.
  - cbn [bind float_round cond_Zopp xorb].
    pose proof (round_half_even_ge 30 (Zpos m2) e2 ltac:(lia) Hge2).
    intros [= <-]. lia.
Qed.

Lemma step_bonus_full_witness :
  Z.max 65 1 <= 80 /\ step_bonus_of 80 65 = Ok 30 /\ 30 = 30.
Proof.
  split; [lia|]. split; [reflexivity|].
  apply (step_bonus_full 80 65 30); [lia|reflexivity].
Defined.

Lemma collect_recommendations_Forall2 (R : string * Z -> dict rec_value -> Prop) :
  (forall name score rec, recommendation_of name score = Ok rec -> R (name, score) rec) ->
  forall items recs,
    collect_recommendations items = Ok recs -> Forall2 R items recs.
Proof.
  intros HR. induction items as [|[name score] items IH]; simpl; intros recs.
  - intros [= <-]. constructor.
  - destruct (recommendation_of name score) as [rec|] eqn:E; cbn [bind]; [|discriminate].
    destruct (collect_recommendations items) as [recs'|]; cbn [bind]; [|discriminate].
    intros [= <-]. constructor; auto.
Qed.

Lemma slice_to_length {A : Type} (l : list A) (n : Z) :
  Z.of_nat (List.length (slice_to l n))
  = if 0 <=? n then Z.min n (Z.of_nat (List.length l))
    else Z.max 0 (Z.of_nat (List.length l) + n).
Proof.
  unfold slice_to. destruct (Z.leb_spec 0 n); rewrite length_firstn; lia.
Qed.

(** X7. [generate_recommendations] returns [min(top_n, n)] records for
    a mapping of [n] topics and [top_n >= 0], and [max(0, n + top_n)]
    for a negative [top_n], which the slice counts from the end. *)
Theorem recommendations_length (skill_scores : dict Z) (top_n : Z) :
  exists recs,
    generate_recommendations skill_scores top_n = Ok recs /\
    Z.of_nat (List.length recs)
    = if 0 <=? top_n then Z.min top_n (Z.of_nat (List.length skill_scores))
      else Z.max 0 (Z.of_nat (List.length skill_scores) + top_n).
Proof.
  unfold generate_recommendations.
  destruct (collect_recommendations_ok (slice_to (sorted_by_key snd skill_scores) top_n))
    as (recs & E & H).
  exists recs. split; [exact E|].
  rewrite <- (Forall2_length H), slice_to_length.
  rewrite <- (Permutation_length (sorted_by_key_perm snd skill_scores)).
  reflexivity.
Qed.

Lemma recommendation_of_keys (name : string) (score : Z) (rec : dict rec_value) :
  recommendation_of name score = Ok rec ->
  dict_keys rec = if dict_contains KNOWLEDGE_GRAPH_RESOURCES name
                  then record_keys_full else record_keys_short.
Proof.
  unfold recommendation_of, dict_contains, dict_getitem.
  destruct (tag_of score) as [tag tag_class].
  destruct (dict_get KNOWLEDGE_GRAPH_RESOURCES name) as [resource|] eqn:E.
  - destruct (resource_complete name resource E) as (n & d & tp & Hn & Hd & Ht).
    cbn [bind]. rewrite Hn. cbn [bind]. rewrite Hd. cbn [bind]. rewrite Ht.
    cbn [bind]. intros [= <-]. reflexivity.
  - intros [= <-]. reflexivity.
Qed.

(** X8. Each record names its topic and has the keys knowledge, score,
    tag, tag_class, advice in this order, followed by next_topic,
    next_difficulty, next_tip exactly when the topic is in
    [KNOWLEDGE_GRAPH_RESOURCES]. *)
Theorem recommendation_keys (skill_scores : dict Z) (top_n : Z)
    (recs : list (dict rec_value)) :
  generate_recommendations skill_scores top_n = Ok recs ->
  Forall2 (fun kv rec =>
             rec_knowledge rec = Some (VStr (fst kv)) /\
             dict_keys rec = if dict_contains KNOWLEDGE_GRAPH_RESOURCES (fst kv)
                             then record_keys_full else record_keys_short)
          (slice_to (sorted_by_key snd skill_scores) top_n) recs.
Proof.
  unfold generate_recommendations.
  apply collect_recommendations_Forall2.
  intros name score rec H. cbn [fst]. split.
  - destruct (recommendation_of_ok name score) as (rec' & E & Hk & _).
    rewrite E in H. injection H as <-. exact Hk.
  - exact (recommendation_of_keys name score rec H).
Qed.

Lemma insert_by_key_head {A : Type} (key : A -> Z) (x : A) (l : list A) :
  exists y l', insert_by_key key x l = y :: l'.
Proof. destruct l as [|y l]; simpl; [eauto|]. destruct (key x <=? key y); eauto. Qed.

(** X9. On a non-empty mapping and a limit of at least 1 the first
    record is the weakest topic: its score is the minimum of the mapping
    and, among the topics with that score, it is the first entry. *)
Theorem weakest_topic_first (skill_scores : dict Z) (top_n : Z) :
  skill_scores <> [] -> 1 <= top_n ->
  exists name x rec recs,
    generate_recommendations skill_scores top_n = Ok (rec :: recs) /\
    rec_knowledge rec = Some (VStr name) /\
    rec_score rec = Some (VInt x) /\
    (forall kv, In kv skill_scores -> x <= snd kv) /\
    hd_error (with_score x skill_scores) = Some (name, x).
Proof.
  intros Hne Hn. unfold generate_recommendations, slice_to.
  destruct (Z.leb_spec 0 top_n); [|lia].
  pose proof (sorted_by_key_perm snd skill_scores) as Hperm.
  pose proof (sorted_by_key_sorted snd skill_scores) as Hsorted.
  pose proof (sorted_by_key_stable (@snd string Z)) as Hstable.
  destruct (sorted_by_key snd skill_scores) as [|[name x] rest] eqn:Es.
  { apply Permutation_sym, Permutation_nil in Hperm. contradiction. }
  destruct (Z.to_nat top_n) as [|k] eqn:Ek; [lia|].
  cbn [firstn collect_recommendations].
  destruct (recommendation_of_ok name x) as (rec & -> & Hk & Hs & _).
  destruct (collect_recommendations_ok (firstn k rest)) as (recs & -> & _).
  cbn [bind]. exists name, x, rec, recs.
  split; [reflexivity|]. split; [exact Hk|]. split; [exact Hs|]. split.
  - intros kv Hin. apply (Permutation_in _ Hperm) in Hin.
    destruct Hin as [<-|Hin]; [simpl; lia|].
    apply StronglySorted_inv in Hsorted as (_ & Hall).
    rewrite Forall_forall in Hall. exact (Hall kv Hin).
  - unfold with_score. rewrite <- (Hstable x skill_scores), Es.
    cbn [filter snd]. rewrite Z.eqb_refl. reflexivity.
Qed.

Lemma weakest_topic_first_witness :
  exists name x rec recs,
    generate_recommendations
      [("分治思想", 40); ("基准选择", 20); ("递归调用", 20)]%string 2 = Ok (rec :: recs) /\
    rec_knowledge rec = Some (VStr name) /\
    rec_score rec = Some (VInt x) /\
    (forall kv, In kv [("分治思想", 40); ("基准选择", 20); ("递归调用", 20)]%string ->
                x <= snd kv) /\
    hd_error (with_score x [("分治思想", 40); ("基准选择", 20); ("递归调用", 20)]%string)
    = Some (name, x).
Proof.
  apply (weakest_topic_first
           [("分治思想", 40); ("基准选择", 20); ("递归调用", 20)]%string 2);
    [discriminate|lia].
Defined.

Lemma scores_with_keys (p : user_profile_dict) (sb : Z) :
  dict_keys (scores_with p sb) = topic_names.
Proof. reflexivity. Qed.

(** A mapping of the scorer always gets its five recommendations. *)
Lemma recommendations_of_scores (p : user_profile_dict) (t : Z) (scores : dict Z) :
  calculate_skill_scores p t = Ok scores ->
  exists recs,
    generate_recommendations_default scores = Ok recs /\ List.length recs = 5%nat.
Proof.
  intros H. apply calculate_skill_scores_inv in H as (sb & _ & ->).
  unfold generate_recommendations_default, generate_recommendations.
  destruct (collect_recommendations_ok
              (slice_to (sorted_by_key snd (scores_with p sb)) 5)) as (recs & E & H).
  exists recs. split; [exact E|].
  rewrite <- (Forall2_length H). unfold slice_to. cbn [Z.leb Z.compare].
  rewrite length_firstn.
  rewrite <- (Permutation_length (sorted_by_key_perm snd (scores_with p sb))).
  reflexivity.
Qed.

(** X10. The pipeline of [/api/analyze]: on every mapping that
    [calculate_skill_scores] returns, [generate_recommendations] with
    its default limit returns five records, one per topic, each with all
    eight keys and a score in [0,100], in ascending order of score. *)
Theorem analyze_pipeline (p : user_profile_dict) (t : Z) (scores : dict Z) :
  calculate_skill_scores p t = Ok scores ->
  exists recs,
    generate_recommendations_default scores = Ok recs /\
    List.length recs = 5%nat /\
    Permutation (map rec_knowledge recs) (map (fun k => Some (VStr k)) topic_names) /\
    Forall (fun rec => dict_keys rec = record_keys_full /\
                       exists x, rec_score rec = Some (VInt x) /\ 0 <= x <= 100) recs /\
    StronglySorted (fun r1 r2 => forall x1 x2,
                        rec_score r1 = Some (VInt x1) ->
                        rec_score r2 = Some (VInt x2) -> x1 <= x2) recs.
Proof.
  intros H.
  apply calculate_skill_scores_inv in H as (sb & _ & ->).
  unfold generate_recommendations_default, generate_recommendations, slice_to.
  change (0 <=? 5) with true. cbn iota.
  set (sorted := sorted_by_key snd (scores_with p sb)).
  pose proof (sorted_by_key_perm snd (scores_with p sb)) as Hperm. fold sorted in Hperm.
  pose proof (sorted_by_key_sorted snd (scores_with p sb)) as Hsorted. fold sorted in Hsorted.
  assert (Hlen : List.length sorted = 5%nat).
  { rewrite <- (Permutation_length Hperm). reflexivity. }
  rewrite firstn_all2 by (rewrite Hlen; simpl; lia).
  destruct (collect_recommendations_ok sorted) as (recs & E & H).
  exists recs. split; [exact E|].
  split; [rewrite <- (Forall2_length H); exact Hlen|].
  assert (Hk : map rec_knowledge recs = map (fun kv => Some (VStr (fst kv))) sorted).
  { clear - H. induction H as [|kv rec l l' (Hk & _) _ IH]; simpl; [reflexivity|].
    unfold rec_knowledge at 1. rewrite Hk, IH. reflexivity. }
  split.
  { rewrite Hk.
    change (map (fun k => Some (VStr k)) topic_names)
      with (map (fun kv : string * Z => Some (VStr (fst kv))) (scores_with p sb)).
    apply Permutation_map, Permutation_sym, Hperm. }
  assert (Hin : Forall (fun kv => dict_contains KNOWLEDGE_GRAPH_RESOURCES (fst kv) = true
                                  /\ 0 <= snd kv <= 100) sorted).
  { eapply Permutation_Forall; [exact Hperm|].
    unfold scores_with. apply Forall_map, Forall_forall.
    intros [k lines] Hin. cbn [fst snd]. split; [|apply clamp_range].
    simpl in Hin.
    repeat (destruct Hin as [Hin|Hin]; [injection Hin as <- <-; reflexivity|]).
    destruct Hin. }
  split.
  - pose proof (collect_recommendations_Forall2
                  (fun kv rec => dict_keys rec = if dict_contains KNOWLEDGE_GRAPH_RESOURCES (fst kv)
                                                 then record_keys_full else record_keys_short)
                  (fun n s r Hr => recommendation_of_keys n s r Hr) sorted recs E) as Hkeys.
    clear - H Hkeys Hin.
    induction H as [|kv rec l l' (_ & Hs & _) Hrest IH]; [constructor|].
    inversion Hkeys as [|? ? ? ? Hkey Hkeys']; subst.
    inversion Hin as [|? ? (Hc & Hr) Hin']; subst.
    constructor; [|auto].
    rewrite Hc in Hkey. split; [exact Hkey|]. exists (snd kv). split; assumption.
  - clear - H Hsorted.
    induction H as [|kv rec l l' (_ & Hs & _) Hrest IH]; [constructor|].
    apply StronglySorted_inv in Hsorted as (Hsorted & Hall).
    constructor; [auto|].
    clear - Hs Hrest Hall.
    induction Hrest as [|kv' rec' l l' (_ & Hs' & _) Hrest IH]; [constructor|].
    inversion Hall as [|? ? Hle Hall']; subst.
    constructor; [|auto].
    intros x1 x2. unfold rec_score. rewrite Hs, Hs'. intros [= <-] [= <-]. exact Hle.
Qed.

Lemma analyze_pipeline_witness :
  exists recs,
    generate_recommendations_default
      [("分治思想", 30); ("基准选择", 20); ("分区操作", 40);
       ("递归调用", 40); ("复杂度分析", 75)]%string = Ok recs /\
    List.length recs = 5%nat.
Proof.
  destruct (analyze_pipeline
              {| total_steps_viewed := Some 25; marked_lines := Some [1; 12; 12];
                 questions_asked := Some 2;
                 question_topics := Some ["复杂度分析"; "复杂度分析"]%string;
                 completed_runs := Some 1 |} 50 _ eq_refl)
    as (recs & E & Hlen & _).
  exists recs. split; [exact E|exact Hlen].
Defined.

Lemma completed_runs_monotone_witness :
  0 <= 1 /\
  exists s2,
    calculate_skill_scores
      (with_completed_runs
         {| total_steps_viewed := Some 25; marked_lines := Some [4];
            questions_asked := None; question_topics := None;
            completed_runs := None |} 1) 50 = Ok s2 /\
    scores_le [("分治思想", 25); ("基准选择", 25); ("分区操作", 15);
               ("递归调用", 25); ("复杂度分析", 25)]%string s2.
Proof.
  split; [lia|].
  destruct (completed_runs_monotone
              {| total_steps_viewed := Some 25; marked_lines := Some [4];
                 questions_asked := None; question_topics := None;
                 completed_runs := None |} 0 1 50 _ ltac:(lia) eq_refl)
    as (s2 & E & Hle & _).
  exists s2. split; [exact E|exact Hle].
Defined.

Lemma marks_never_raise_witness :
  exists s',
    calculate_skill_scores
      (with_marked_lines
         {| total_steps_viewed := Some 50; marked_lines := None;
            questions_asked := None; question_topics := None;
            completed_runs := Some 1 |} ([3] ++ [5; 11])) 50 = Ok s' /\
    scores_le s' [("分治思想", 55); ("基准选择", 55); ("分区操作", 55);
                  ("递归调用", 45); ("复杂度分析", 55)]%string.
Proof.
  destruct (marks_never_raise
              {| total_steps_viewed := Some 50; marked_lines := None;
                 questions_asked := None; question_topics := None;
                 completed_runs := Some 1 |} [3] [5; 11] 50 _ eq_refl)
    as (s' & E & Hle & _).
  exists s'. split; [exact E|exact Hle].
Defined.

Lemma line_topics_at_most_85_witness :
  exists x,
    dict_get [("分治思想", 70); ("基准选择", 70); ("分区操作", 85);
              ("递归调用", 70); ("复杂度分析", 70)]%string "分区操作" = Some x /\
    x <= 85.
Proof.
  destruct (line_topics_at_most_85
              {| total_steps_viewed := Some 60; marked_lines := None;
                 questions_asked := Some 1;
                 question_topics := Some ["分区操作"%string];
                 completed_runs := Some 3 |} 50 _ "分区操作"
              [4; 10; 13; 14; 15; 16; 17; 18; 19; 22] eq_refl eq_refl
              ltac:(discriminate))
    as (x & E & Hle & _).
  exists x. split; [exact E|exact Hle].
Defined.

Lemma recommendation_keys_witness :
  Forall2 (fun kv rec =>
             rec_knowledge rec = Some (VStr (fst kv)) /\
             dict_keys rec = if dict_contains KNOWLEDGE_GRAPH_RESOURCES (fst kv)
                             then record_keys_full else record_keys_short)
          (slice_to (sorted_by_key snd [("链表", 12); ("递归调用", 3)]%string) 5)
          [ [("knowledge", VStr "递归调用"); ("score", VInt 3);
             ("tag", VStr "建议重点学习"); ("tag_class", VStr "hard");
             ("advice", VStr "递归可能比较抽象。建议关注第5-6行，观察排序是如何被分解为更小的子问题的。");
             ("next_topic", VStr "尾递归优化"); ("next_difficulty", VStr "hard");
             ("next_tip", VStr "理解递归后，学习如何用尾递归优化减少栈空间")];
            [("knowledge", VStr "链表"); ("score", VInt 12);
             ("tag", VStr "建议重点学习"); ("tag_class", VStr "hard");
             ("advice", VStr EmptyString)] ]%string.
Proof.
  apply (recommendation_keys [("链表", 12); ("递归调用", 3)]%string 5).
  reflexivity.
Defined.

(** ** The routes of [app/routes/api.py] *)

Import Api.

Lemma find_append {A : Type} (f : A -> bool) (l1 l2 : list A) :
  find f (l1 ++ l2) = match find f l1 with Some x => Some x | None => find f l2 end.
Proof.
  induction l1 as [|x l1 IH]; simpl; [reflexivity|].
  destruct (f x); [reflexivity|exact IH].
Qed.

Lemma NoDup_snoc {A : Type} (l : list A) (x : A) :
  NoDup l -> ~ In x l -> NoDup (l ++ [x]).
Proof.
  intros Hl Hx. apply NoDup_app; [exact Hl|repeat constructor; intros []|].
  intros y Hy [<-|[]]. contradiction.
Qed.

Lemma next_id_fresh (ids : list Z) : ~ In (next_id ids) ids.
Proof.
  assert (H : forall x, In x ids -> x <= fold_right Z.max 0 ids).
  { induction ids as [|y ids IH]; simpl; [intros x []|].
    intros x [<-|Hin]; [lia|]. specialize (IH x Hin). lia. }
  intros Hin. apply H in Hin. unfold next_id in Hin. lia.
Qed.

Lemma find_user_session (sid : string) (users : list UserProfile.t) (u : UserProfile.t) :
  find_user sid users = Some u -> In u users /\ UserProfile.session_id u = sid.
Proof.
  unfold find_user. intros H. apply find_some in H as (Hin & E).
  split; [exact Hin|]. now apply String.eqb_eq.
Qed.

Lemma find_user_none (sid : string) (users : list UserProfile.t) :
  find_user sid users = None -> ~ In sid (map UserProfile.session_id users).
Proof.
  unfold find_user. intros H Hin. apply in_map_iff in Hin as (u & <- & Hu).
  pose proof (find_none _ _ H u Hu) as E. cbn beta in E.
  rewrite String.eqb_refl in E. discriminate.
Qed.

Lemma counts_chat_new (rows : list ChatHistory.t) (uid : Z) (sid : string) :
  ~ In uid (map ChatHistory.user_id rows) -> counts_chat rows (new_user uid sid).
Proof.
  intros H. unfold counts_chat, chat_of. cbn [new_user UserProfile.id
    UserProfile.questions_asked UserProfile.question_topics].
  assert (E : filter (fun c => ChatHistory.user_id c =? uid) rows = []).
  { induction rows as [|c rows IH]; [reflexivity|]. simpl in *.
    destruct (Z.eqb_spec (ChatHistory.user_id c) uid); [tauto|].
    apply IH. tauto. }
  rewrite E. split; reflexivity.
Qed.

Lemma update_user_ids (u' : UserProfile.t) (users : list UserProfile.t) :
  map UserProfile.id (update_user u' users) = map UserProfile.id users.
Proof.
  unfold update_user. rewrite map_map. apply map_ext. intros w.
  destruct (Z.eqb_spec (UserProfile.id w) (UserProfile.id u')); congruence.
Qed.

Lemma NoDup_map_eq {A B : Type} (f : A -> B) (l : list A) (a b : A) :
  NoDup (map f l) -> In a l -> In b l -> f a = f b -> a = b.
Proof.
  induction l as [|x l IH]; simpl; [intros _ []|].
  intros Hnd [<-|Ha] [<-|Hb] E; trivial; inversion Hnd as [|? ? Hx Hl]; subst.
  - exfalso. apply Hx. rewrite E. now apply in_map.
  - exfalso. apply Hx. rewrite <- E. now apply in_map.
  - now apply IH.
Qed.

Lemma update_user_sessions (u u' : UserProfile.t) (users : list UserProfile.t) :
  NoDup (map UserProfile.id users) -> In u users ->
  UserProfile.id u' = UserProfile.id u ->
  UserProfile.session_id u' = UserProfile.session_id u ->
  map UserProfile.session_id (update_user u' users)
  = map UserProfile.session_id users.
Proof.
  intros Hnd Hin Hid Hs. unfold update_user. rewrite map_map.
  apply map_ext_in. intros w Hw.
  destruct (Z.eqb_spec (UserProfile.id w) (UserProfile.id u')) as [E|]; [|reflexivity].
  rewrite (NoDup_map_eq UserProfile.id users w u Hnd Hw Hin) by congruence.
  exact Hs.
Qed.

Lemma update_user_Forall (Q : UserProfile.t -> Prop) (u' : UserProfile.t)
    (users : list UserProfile.t) :
  (forall w, In w users -> UserProfile.id w <> UserProfile.id u' -> Q w) ->
  Q u' -> Forall Q (update_user u' users).
Proof.
  intros Hw Hu. unfold update_user. apply Forall_map, Forall_forall.
  intros w Hin. destruct (Z.eqb_spec (UserProfile.id w) (UserProfile.id u')); auto.
Qed.

Lemma chat_of_app (uid : Z) (rows extra : list ChatHistory.t) :
  chat_of uid (rows ++ extra) = chat_of uid rows ++ chat_of uid extra.
Proof. apply filter_app. Qed.

Lemma chat_of_other (uid : Z) (extra : list ChatHistory.t) (uid' : Z) :
  Forall (fun c => ChatHistory.user_id c = uid') extra -> uid <> uid' ->
  chat_of uid extra = [].
Proof.
  intros H Hne. induction H as [|c extra Hc _ IH]; [reflexivity|].
  unfold chat_of in *. simpl. rewrite Hc.
  destruct (Z.eqb_spec uid' uid); [congruence|exact IH].
Qed.

Lemma chat_of_same (uid : Z) (extra : list ChatHistory.t) :
  Forall (fun c => ChatHistory.user_id c = uid) extra -> chat_of uid extra = extra.
Proof.
  intros H. induction H as [|c extra Hc _ IH]; [reflexivity|].
  unfold chat_of in *. simpl. rewrite Hc, Z.eqb_refl, IH. reflexivity.
Qed.

(** A commit that rewrites one profile and appends rows for it keeps the
    database consistent, as long as the counters follow the new chat
    rows and the stored scores stay well formed. *)
Lemma commit_consistent (st st' : db) (u u' : UserProfile.t)
    (new_chat : list ChatHistory.t) (new_records : list LearningRecord.t) :
  consistent st -> In u (user_profile st) ->
  UserProfile.id u' = UserProfile.id u ->
  UserProfile.session_id u' = UserProfile.session_id u ->
  user_profile st' = update_user u' (user_profile st) ->
  chat_history st' = chat_history st ++ new_chat ->
  learning_record st' = learning_record st ++ new_records ->
  Forall (fun c => ChatHistory.user_id c = UserProfile.id u) new_chat ->
  Forall (fun r => LearningRecord.user_id r = UserProfile.id u) new_records ->
  UserProfile.questions_asked u'
  = UserProfile.questions_asked u + Z.of_nat (List.length new_chat) ->
  UserProfile.question_topics u'
  = UserProfile.question_topics u
    ++ filter str_truthy (map ChatHistory.topic new_chat) ->
  scores_well_formed (UserProfile.skill_scores u') ->
  consistent st'.
Proof.
  intros (Hs & Hi & Hc & Hl & Hq & Hw) Hin Hid Hsid Eu Ec El Hnc Hnr Hqa Hqt Hsc.
  assert (Huid : In (UserProfile.id u) (map UserProfile.id (user_profile st)))
    by now apply in_map.
  unfold consistent. rewrite Eu, Ec, El, update_user_ids.
  rewrite (update_user_sessions u u' _ Hi Hin Hid Hsid).
  repeat split; try assumption.
  - apply Forall_app. split; [exact Hc|].
    eapply Forall_impl; [|exact Hnc]. intros c ->. exact Huid.
  - apply Forall_app. split; [exact Hl|].
    eapply Forall_impl; [|exact Hnr]. intros c ->. exact Huid.
  - rewrite Forall_forall in Hq. apply update_user_Forall.
    + intros w Hw' Hne. destruct (Hq w Hw') as (H1 & H2).
      unfold counts_chat. rewrite chat_of_app.
      rewrite (chat_of_other _ new_chat (UserProfile.id u)), app_nil_r
        by (trivial; congruence).
      split; assumption.
    + destruct (Hq u Hin) as (H1 & H2).
      unfold counts_chat. rewrite Hid, chat_of_app, (chat_of_same _ new_chat Hnc).
      rewrite length_app, map_app, filter_app, Hqa, Hqt, H1, H2. split; [lia|reflexivity].
  - rewrite Forall_forall in Hw. apply update_user_Forall; auto.
Qed.

Ltac commit_with st1 u new_chat new_records :=
  match goal with
  | |- consistent {| user_profile := update_user ?u' _;
                     learning_record := _; chat_history := _ |} =>
      eapply (commit_consistent st1 _ u u' new_chat new_records);
      cbn [user_profile chat_history learning_record UserProfile.id
           UserProfile.session_id UserProfile.questions_asked
           UserProfile.question_topics UserProfile.skill_scores
           List.length map filter ChatHistory.topic];
      rewrite ?app_nil_r;
      try reflexivity; trivial; try lia;
      try (repeat constructor; fail)
  end.

Section RouteFacts.

Variable match_answer : string -> string * string.
Variable QA_KNOWLEDGE_BASE : list qa_entry.

(** What [get_or_create_user] returns and leaves behind. *)
Lemma get_or_create_user_spec (session : option string) (st st1 : db)
    (u : UserProfile.t) :
  get_or_create_user session st = (st1, u) ->
  In u (user_profile st1) /\
  UserProfile.session_id u = session_id_of session /\
  find_user (session_id_of session) (user_profile st1) = Some u /\
  learning_record st1 = learning_record st /\
  chat_history st1 = chat_history st /\
  ((st1 = st /\ find_user (session_id_of session) (user_profile st) = Some u) \/
   (find_user (session_id_of session) (user_profile st) = None /\
    u = new_user (next_id (map UserProfile.id (user_profile st))) (session_id_of session) /\
    user_profile st1 = user_profile st ++ [u])).
Proof.
  unfold get_or_create_user.
  destruct (find_user (session_id_of session) (user_profile st)) as [u0|] eqn:E.
  - intros [= <- <-]. destruct (find_user_session _ _ _ E) as (Hin & Hs).
    repeat split; auto.
  - intros [= <- <-]. cbn [user_profile learning_record chat_history].
    repeat split; auto.
    + apply in_or_app. right. left. reflexivity.
    + unfold find_user in *. rewrite find_append, E. simpl.
      rewrite String.eqb_refl. reflexivity.
Qed.

Lemma get_or_create_user_consistent (session : option string) (st st1 : db)
    (u : UserProfile.t) :
  get_or_create_user session st = (st1, u) -> consistent st -> consistent st1.
Proof.
  intros H (Hs & Hi & Hc & Hl & Hq & Hw).
  destruct (get_or_create_user_spec _ _ _ _ H)
    as (_ & _ & _ & El & Ec & [(-> & _)|(Hnone & Hu & Eu)]).
  { repeat split; assumption. }
  unfold consistent. rewrite Eu, El, Ec, !map_app. cbn [map].
  assert (Hfresh : ~ In (UserProfile.id u) (map UserProfile.id (user_profile st))).
  { rewrite Hu. apply next_id_fresh. }
  repeat split.
  - apply NoDup_snoc; [exact Hs|].
    rewrite Hu. cbn [new_user UserProfile.session_id]. now apply find_user_none.
  - apply NoDup_snoc; assumption.
  - eapply Forall_impl; [|exact Hc]. intros c Hin. apply in_or_app. now left.
  - eapply Forall_impl; [|exact Hl]. intros c Hin. apply in_or_app. now left.
  - apply Forall_app. split; [exact Hq|]. constructor; [|constructor].
    rewrite Hu. apply counts_chat_new. intros Hin. apply Hfresh.
    rewrite Hu. cbn [new_user UserProfile.id].
    apply in_map_iff in Hin as (c & Ec' & Hcin).
    rewrite Forall_forall in Hc. rewrite <- Ec'. exact (Hc c Hcin).
  - apply Forall_app. split; [exact Hw|]. constructor; [|constructor].
    rewrite Hu. left. reflexivity.
Qed.

(** Every route keeps the database consistent. *)
Lemma handle_consistent (session : option string) (req : request) (st : db) :
  consistent st -> consistent (fst (handle match_answer QA_KNOWLEDGE_BASE session req st)).
Proof.
  intros Hst.
  assert (Hscores : forall st1 u, consistent st1 -> In u (user_profile st1) ->
                                  scores_well_formed (UserProfile.skill_scores u)).
  { intros st1 u (_ & _ & _ & _ & _ & Hw) Hin. rewrite Forall_forall in Hw. auto. }
  destruct req as [data| |data|data|data|]; cbn [handle].
  - unfold chat. destruct data as [[[q|]]|]; cbn [Requests.question fst]; trivial.
    destruct (match_answer q) as [ans tp].
    destruct (get_or_create_user session st) as [st1 u] eqn:E. cbn [fst].
    pose proof (get_or_create_user_consistent _ _ _ _ E Hst) as H1.
    destruct (get_or_create_user_spec _ _ _ _ E) as (Hin & _).
    commit_with st1 u
      [{| ChatHistory.id := next_id (map ChatHistory.id (chat_history st1));
          ChatHistory.user_id := UserProfile.id u;
          ChatHistory.question := q;
          ChatHistory.answer := ans;
          ChatHistory.topic := tp |}] (@nil LearningRecord.t).
    + destruct (str_truthy tp); [reflexivity|now rewrite app_nil_r].
    + eauto.
  - unfold get_profile.
    destruct (get_or_create_user session st) as [st1 u] eqn:E. cbn [fst].
    exact (get_or_create_user_consistent _ _ _ _ E Hst).
  - unfold update_profile. destruct data as [d|]; trivial.
    destruct (profile_data_falsy (Some d)); trivial.
    destruct (get_or_create_user session st) as [st1 u] eqn:E.
    pose proof (get_or_create_user_consistent _ _ _ _ E Hst) as H1.
    destruct (get_or_create_user_spec _ _ _ _ E) as (Hin & _).
    destruct (profile_data_storable d); cbn [fst]; [|exact H1].
    commit_with st1 u (@nil ChatHistory.t) (@nil LearningRecord.t). eauto.
  - unfold save_mark. destruct data as [d|]; trivial.
    destruct (Requests.line d) as [ln|]; trivial.
    destruct (get_or_create_user session st) as [st1 u] eqn:E. cbn [fst].
    pose proof (get_or_create_user_consistent _ _ _ _ E Hst) as H1.
    destruct (get_or_create_user_spec _ _ _ _ E) as (Hin & _).
    commit_with st1 u (@nil ChatHistory.t)
      [{| LearningRecord.id := next_id (map LearningRecord.id (learning_record st1));
          LearningRecord.user_id := UserProfile.id u;
          LearningRecord.action_type := "mark_line";
          LearningRecord.action_data := d |}]. eauto.
  - unfold analyze.
    destruct (get_or_create_user session st) as [st1 u] eqn:E.
    pose proof (get_or_create_user_consistent _ _ _ _ E Hst) as H1.
    destruct (get_or_create_user_spec _ _ _ _ E) as (Hin & _).
    destruct (calculate_skill_scores _ _) as [scores|e] eqn:Es; [|exact H1].
    assert (H2 : scores_well_formed scores).
    { right. apply calculate_skill_scores_inv in Es as (sb & _ & ->).
      split; [reflexivity|].
      unfold scores_with. apply Forall_map, Forall_forall.
      intros kv _. apply clamp_range. }
    destruct (generate_recommendations_default scores); cbn [fst];
      commit_with st1 u (@nil ChatHistory.t) (@nil LearningRecord.t).
  - exact Hst.
Qed.

Lemma empty_db_consistent : consistent empty_db.
Proof. unfold consistent, empty_db; cbn. repeat split; constructor. Qed.

Lemma run_consistent (trace : list (option string * request)) (st : db) :
  consistent st -> consistent (run match_answer QA_KNOWLEDGE_BASE trace st).
Proof.
  revert st. induction trace as [|[s r] trace IH]; intros st Hst; [exact Hst|].
  cbn [run fold_left fst snd]. apply IH. now apply handle_consistent.
Qed.

(** The shape of every route: nothing happens, or the profile of the
    session is fetched (and created if missing), or it is fetched and
    then rewritten in place while rows are appended to the two logs. *)
Lemma handle_shape (session : option string) (req : request) (st : db) :
  exists st1 u,
    get_or_create_user session st = (st1, u) /\
    (fst (handle match_answer QA_KNOWLEDGE_BASE session req st) = st \/
     fst (handle match_answer QA_KNOWLEDGE_BASE session req st) = st1 \/
     exists u' new_records new_chat,
       user_profile (fst (handle match_answer QA_KNOWLEDGE_BASE session req st))
       = update_user u' (user_profile st1) /\
       UserProfile.id u' = UserProfile.id u /\
       UserProfile.session_id u' = UserProfile.session_id u /\
       learning_record (fst (handle match_answer QA_KNOWLEDGE_BASE session req st))
       = learning_record st1 ++ new_records /\
       chat_history (fst (handle match_answer QA_KNOWLEDGE_BASE session req st))
       = chat_history st1 ++ new_chat).
Proof.
  destruct (get_or_create_user session st) as [st1 u] eqn:E.
  exists st1, u. split; [reflexivity|].
  destruct req as [data| |data|data|data|]; cbn [handle].
  - unfold chat. destruct data as [[[q|]]|]; cbn [Requests.question fst]; auto.
    destruct (match_answer q) as [ans tp]. rewrite E. cbn [fst].
    right. right. do 3 eexists. cbn [user_profile learning_record chat_history].
    repeat split; symmetry; apply app_nil_r.
  - unfold get_profile. rewrite E. auto.
  - unfold update_profile. destruct data as [d|]; auto.
    destruct (profile_data_falsy (Some d)); auto. rewrite E.
    destruct (profile_data_storable d); cbn [fst]; [|auto].
    right. right. do 3 eexists. cbn [user_profile learning_record chat_history].
    repeat split; symmetry; apply app_nil_r.
  - unfold save_mark. destruct data as [d|]; auto.
    destruct (Requests.line d) as [ln|]; auto. rewrite E. cbn [fst].
    right. right. do 3 eexists. cbn [user_profile learning_record chat_history].
    repeat split; symmetry; apply app_nil_r.
  - unfold analyze. rewrite E.
    destruct (calculate_skill_scores _ _) as [scores|e]; auto.
    right. right.
    destruct (generate_recommendations_default scores); cbn [fst];
      do 3 eexists; cbn [user_profile learning_record chat_history];
      (repeat split; symmetry; apply app_nil_r).
  - auto.
Qed.

(** X11. After any sequence of requests, each profile's
    [questions_asked] is the number of its rows in the chat history, and
    its [question_topics] are the non-empty topics of those rows, in
    order. *)
Theorem counters_match_chat_log (trace : list (option string * request)) :
  Forall (counts_chat (chat_history (run match_answer QA_KNOWLEDGE_BASE trace empty_db)))
         (user_profile (run match_answer QA_KNOWLEDGE_BASE trace empty_db)).
Proof.
  destruct (run_consistent trace empty_db empty_db_consistent)
    as (_ & _ & _ & _ & H & _).
  exact H.
Qed.

(** X12. After any sequence of requests no two profiles share a
    session id or a primary key, and the [user_id] of every chat row and
    of every learning record is the key of a stored profile. *)
Theorem keys_unique_and_references_valid (trace : list (option string * request)) :
  NoDup (map UserProfile.session_id
           (user_profile (run match_answer QA_KNOWLEDGE_BASE trace empty_db))) /\
  NoDup (map UserProfile.id
           (user_profile (run match_answer QA_KNOWLEDGE_BASE trace empty_db))) /\
  Forall (fun c => In (ChatHistory.user_id c)
                      (map UserProfile.id
                         (user_profile (run match_answer QA_KNOWLEDGE_BASE trace empty_db))))
         (chat_history (run match_answer QA_KNOWLEDGE_BASE trace empty_db)) /\
  Forall (fun r => In (LearningRecord.user_id r)
                      (map UserProfile.id
                         (user_profile (run match_answer QA_KNOWLEDGE_BASE trace empty_db))))
         (learning_record (run match_answer QA_KNOWLEDGE_BASE trace empty_db)).
Proof.
  destruct (run_consistent trace empty_db empty_db_consistent)
    as (H1 & H2 & H3 & H4 & _).
  repeat split; assumption.
Qed.

(** X13. After any sequence of requests the scores stored with a
    profile are the column default (none) or one score in [0,100] for
    each of the five topics. *)
Theorem stored_scores_well_formed (trace : list (option string * request)) :
  Forall (fun u => scores_well_formed (UserProfile.skill_scores u))
         (user_profile (run match_answer QA_KNOWLEDGE_BASE trace empty_db)).
Proof.
  destruct (run_consistent trace empty_db empty_db_consistent)
    as (_ & _ & _ & _ & _ & H).
  exact H.
Qed.

Lemma find_user_update_other (sid' : string) (u u' : UserProfile.t)
    (users : list UserProfile.t) :
  NoDup (map UserProfile.id users) -> In u users ->
  UserProfile.id u' = UserProfile.id u ->
  UserProfile.session_id u' = UserProfile.session_id u ->
  UserProfile.session_id u <> sid' ->
  find_user sid' (update_user u' users) = find_user sid' users.
Proof.
  intros Hnd Hin Hid Hs Hne. unfold find_user, update_user.
  assert (H : forall w, In w users ->
            String.eqb (UserProfile.session_id
                          (if UserProfile.id w =? UserProfile.id u' then u' else w)) sid'
            = String.eqb (UserProfile.session_id w) sid'
            /\ (String.eqb (UserProfile.session_id w) sid' = true ->
                (if UserProfile.id w =? UserProfile.id u' then u' else w) = w)).
  { intros w Hw.
    destruct (Z.eqb_spec (UserProfile.id w) (UserProfile.id u')) as [E|]; [|auto].
    rewrite (NoDup_map_eq UserProfile.id users w u Hnd Hw Hin) by congruence.
    rewrite Hs. split; [reflexivity|].
    intros Ht. apply String.eqb_eq in Ht. contradiction. }
  clear Hnd Hin. induction users as [|w users IH]; [reflexivity|].
  cbn [map find]. destruct (H w (or_introl eq_refl)) as (E1 & E2).
  rewrite E1. destruct (String.eqb (UserProfile.session_id w) sid') eqn:Ew.
  - rewrite E2 by reflexivity. reflexivity.
  - apply IH. intros w' Hw'. apply H. now right.
Qed.

Lemma get_or_create_user_other (session : option string) (st st1 : db)
    (u : UserProfile.t) (sid' : string) :
  get_or_create_user session st = (st1, u) -> session_id_of session <> sid' ->
  find_user sid' (user_profile st1) = find_user sid' (user_profile st).
Proof.
  intros H Hne.
  destruct (get_or_create_user_spec _ _ _ _ H)
    as (_ & _ & _ & _ & _ & [(-> & _)|(_ & Hu & Eu)]); [reflexivity|].
  rewrite Eu. unfold find_user. rewrite find_append.
  destruct (find _ (user_profile st)); [reflexivity|].
  rewrite Hu. simpl. destruct (String.eqb_spec (session_id_of session) sid'); congruence.
Qed.

(** X14. A request of one session leaves the profile of every other
    session as it was ([anonymous] being the session of a request
    without cookie). *)
Theorem sessions_are_isolated (trace : list (option string * request))
    (session : option string) (req : request) (sid' : string) :
  session_id_of session <> sid' ->
  find_user sid'
    (user_profile
       (fst (handle match_answer QA_KNOWLEDGE_BASE session req
               (run match_answer QA_KNOWLEDGE_BASE trace empty_db))))
  = find_user sid' (user_profile (run match_answer QA_KNOWLEDGE_BASE trace empty_db)).
Proof.
  intros Hne.
  pose proof (run_consistent trace empty_db empty_db_consistent) as Hst.
  set (st := run match_answer QA_KNOWLEDGE_BASE trace empty_db) in *.
  destruct (handle_shape session req st)
    as (st1 & u & E & [->|[->|(u' & lr & cr & Eu & Hid & Hs & _)]]).
  - reflexivity.
  - exact (get_or_create_user_other _ _ _ _ _ E Hne).
  - rewrite Eu.
    pose proof (get_or_create_user_consistent _ _ _ _ E Hst) as (_ & Hnd & _).
    destruct (get_or_create_user_spec _ _ _ _ E) as (Hin & Hsid & _).
    rewrite (find_user_update_other sid' u u'); trivial; [|congruence].
    exact (get_or_create_user_other _ _ _ _ _ E Hne).
Qed.

Lemma prefix_of_refl {A : Type} (l : list A) : prefix_of l l.
Proof. exists []. symmetry. apply app_nil_r. Qed.

Lemma prefix_of_trans {A : Type} (l1 l2 l3 : list A) :
  prefix_of l1 l2 -> prefix_of l2 l3 -> prefix_of l1 l3.
Proof. intros (r1 & ->) (r2 & ->). exists (r1 ++ r2). now rewrite app_assoc. Qed.

Lemma prefix_of_app {A : Type} (l r : list A) : prefix_of l (l ++ r).
Proof. now exists r. Qed.

Lemma get_or_create_user_grows (session : option string) (st st1 : db)
    (u : UserProfile.t) :
  get_or_create_user session st = (st1, u) -> grows st st1.
Proof.
  intros H.
  destruct (get_or_create_user_spec _ _ _ _ H)
    as (_ & _ & _ & El & Ec & [(-> & _)|(_ & _ & Eu)]).
  - repeat split; apply prefix_of_refl.
  - unfold grows. rewrite El, Ec, Eu, !map_app.
    repeat split; apply prefix_of_app || apply prefix_of_refl.
Qed.

Lemma handle_grows (session : option string) (req : request) (st : db) :
  consistent st -> grows st (fst (handle match_answer QA_KNOWLEDGE_BASE session req st)).
Proof.
  intros Hst.
  destruct (handle_shape session req st)
    as (st1 & u & E & [->|[->|(u' & lr & cr & Eu & Hid & Hs & El & Ec)]]).
  - repeat split; apply prefix_of_refl.
  - exact (get_or_create_user_grows _ _ _ _ E).
  - pose proof (get_or_create_user_grows _ _ _ _ E) as (G1 & G2 & G3 & G4).
    pose proof (get_or_create_user_consistent _ _ _ _ E Hst) as (_ & Hnd & _).
    destruct (get_or_create_user_spec _ _ _ _ E) as (Hin & _).
    unfold grows. rewrite Eu, El, Ec, update_user_ids.
    rewrite (update_user_sessions u u' _ Hnd Hin Hid Hs).
    repeat split; trivial.
    + eapply prefix_of_trans; [exact G3|apply prefix_of_app].
    + eapply prefix_of_trans; [exact G4|apply prefix_of_app].
Qed.

(** X15. The tables only grow: later requests keep the primary keys
    and the session ids of the profiles in place and append to the two
    logs, no row of which is ever changed or removed. *)
Theorem tables_only_grow (trace more : list (option string * request)) :
  grows (run match_answer QA_KNOWLEDGE_BASE trace empty_db)
        (run match_answer QA_KNOWLEDGE_BASE (trace ++ more) empty_db).
Proof.
  unfold run at 2. rewrite fold_left_app. fold (run match_answer QA_KNOWLEDGE_BASE trace empty_db).
  pose proof (run_consistent trace empty_db empty_db_consistent) as Hst.
  set (st := run match_answer QA_KNOWLEDGE_BASE trace empty_db) in *. clearbody st.
  revert st Hst. induction more as [|[s r] more IH]; intros st Hst.
  - repeat split; apply prefix_of_refl.
  - cbn [fold_left fst snd].
    pose proof (handle_grows s r st Hst) as (G1 & G2 & G3 & G4).
    destruct (IH _ (handle_consistent s r st Hst)) as (K1 & K2 & K3 & K4).
    repeat split; eapply prefix_of_trans; eassumption.
Qed.

Lemma find_user_update_self (sid : string) (u u' : UserProfile.t)
    (users : list UserProfile.t) :
  find_user sid users = Some u ->
  UserProfile.id u' = UserProfile.id u -> UserProfile.session_id u' = sid ->
  find_user sid (update_user u' users) = Some u'.
Proof.
  intros Hf Hid Hs. unfold find_user, update_user in *.
  induction users as [|w users IH]; [discriminate|].
  cbn [map find] in *.
  destruct (String.eqb (UserProfile.session_id w) sid) eqn:Ew.
  - injection Hf as ->. rewrite Hid, Z.eqb_refl, Hs, String.eqb_refl. reflexivity.
  - destruct (UserProfile.id w =? UserProfile.id u').
    + rewrite Hs, String.eqb_refl. reflexivity.
    + rewrite Ew. exact (IH Hf).
Qed.

Lemma get_or_create_user_found (session : option string) (st : db) (u : UserProfile.t) :
  find_user (session_id_of session) (user_profile st) = Some u ->
  get_or_create_user session st = (st, u).
Proof. intros H. unfold get_or_create_user. rewrite H. reflexivity. Qed.

Lemma get_profile_found (session : option string) (st : db) (u : UserProfile.t) :
  find_user (session_id_of session) (user_profile st) = Some u ->
  get_profile session st = (st, Ok (JsonProfile u)).
Proof.
  intros H. unfold get_profile. rewrite (get_or_create_user_found _ _ _ H). reflexivity.
Qed.

(** X16. [POST /api/mark] with a line answers success, leaves the line
    in the session's [marked_lines] (appended if it was not there, the
    list unchanged if it was, so a duplicate-free list stays so) and adds
    one learning record; the same request once more changes no mark and
    adds a further record. *)
Theorem save_mark_adds_line_once (session : option string) (d : Requests.mark_data)
    (ln : Z) (st : db) :
  Requests.line d = Some ln ->
  exists u',
    snd (save_mark session (Some d) st) = Ok JsonSuccess /\
    snd (get_profile session (fst (save_mark session (Some d) st)))
    = Ok (JsonProfile u') /\
    UserProfile.marked_lines u'
    = (let marked := UserProfile.marked_lines (snd (get_or_create_user session st)) in
       if int_in_list ln marked then marked else marked ++ [ln]) /\
    In ln (UserProfile.marked_lines u') /\
    (NoDup (UserProfile.marked_lines (snd (get_or_create_user session st))) ->
     NoDup (UserProfile.marked_lines u')) /\
    List.length (learning_record (fst (save_mark session (Some d) st)))
    = S (List.length (learning_record st)) /\
    exists u'',
      snd (get_profile session
             (fst (save_mark session (Some d) (fst (save_mark session (Some d) st)))))
      = Ok (JsonProfile u'') /\
      UserProfile.marked_lines u'' = UserProfile.marked_lines u' /\
      List.length (learning_record
                     (fst (save_mark session (Some d) (fst (save_mark session (Some d) st)))))
      = S (S (List.length (learning_record st))).
Proof.
  intros Hl.
  assert (Hstep : forall st0 u0 st1,
            get_or_create_user session st0 = (st1, u0) ->
            exists u1,
              snd (save_mark session (Some d) st0) = Ok JsonSuccess /\
              find_user (session_id_of session)
                (user_profile (fst (save_mark session (Some d) st0))) = Some u1 /\
              UserProfile.marked_lines u1
              = (if int_in_list ln (UserProfile.marked_lines u0)
                 then UserProfile.marked_lines u0
                 else UserProfile.marked_lines u0 ++ [ln]) /\
              List.length (learning_record (fst (save_mark session (Some d) st0)))
              = S (List.length (learning_record st0))).
  { intros st0 u0 st1 E. unfold save_mark. rewrite Hl, E.
    destruct (get_or_create_user_spec _ _ _ _ E) as (_ & Hs & Hf & El & _).
    cbn [fst snd user_profile learning_record].
    eexists. split; [reflexivity|]. split.
    - apply (find_user_update_self _ u0); [exact Hf|reflexivity|exact Hs].
    - cbn [UserProfile.marked_lines]. split.
      + destruct (int_in_list ln (UserProfile.marked_lines u0)); reflexivity.
      + rewrite length_app, El. simpl. lia. }
  destruct (get_or_create_user session st) as [st1 u] eqn:E. cbn [snd].
  destruct (Hstep st u st1 E) as (u' & Hr & Hf & Hm & Hlen).
  exists u'. split; [exact Hr|].
  split; [rewrite (get_profile_found _ _ _ Hf); reflexivity|].
  split; [exact Hm|].
  assert (Hin : In ln (UserProfile.marked_lines u')).
  { rewrite Hm. destruct (int_in_list ln (UserProfile.marked_lines u)) eqn:Ei.
    - unfold int_in_list in Ei. apply existsb_exists in Ei as (x & Hx & Ex).
      apply Z.eqb_eq in Ex. now subst.
    - apply in_or_app. right. now left. }
  split; [exact Hin|]. split.
  { intros Hnd. rewrite Hm.
    destruct (int_in_list ln (UserProfile.marked_lines u)) eqn:Ei; [exact Hnd|].
    apply NoDup_snoc; [exact Hnd|]. intros Hc.
    apply int_in_list_In in Hc. congruence. }
  split; [exact Hlen|].
  destruct (Hstep _ u' _ (get_or_create_user_found _ _ _ Hf))
    as (u'' & _ & Hf2 & Hm2 & Hlen2).
  exists u''. split; [rewrite (get_profile_found _ _ _ Hf2); reflexivity|].
  split; [|lia].
  rewrite Hm2, (int_in_list_In ln _ Hin). reflexivity.
Qed.

(** X17. As long as no [POST /api/profile] overwrites [marked_lines],
    no profile ever holds a line twice. *)
Theorem marks_stay_distinct (trace : list (option string * request)) :
  Forall (fun sr => ~ overwrites_marks (snd sr)) trace ->
  Forall (fun u => NoDup (UserProfile.marked_lines u))
         (user_profile (run match_answer QA_KNOWLEDGE_BASE trace empty_db)).
Proof.
  assert (Hgoc : forall session st st1 u,
            get_or_create_user session st = (st1, u) ->
            Forall (fun u => NoDup (UserProfile.marked_lines u)) (user_profile st) ->
            Forall (fun u => NoDup (UserProfile.marked_lines u)) (user_profile st1)).
  { intros session st st1 u E H.
    destruct (get_or_create_user_spec _ _ _ _ E)
      as (_ & _ & _ & _ & _ & [(-> & _)|(_ & Hu & Eu)]); [exact H|].
    rewrite Eu. apply Forall_app. split; [exact H|].
    constructor; [|constructor]. rewrite Hu. constructor. }
  assert (Hstep : forall session req st,
            ~ overwrites_marks req ->
            Forall (fun u => NoDup (UserProfile.marked_lines u)) (user_profile st) ->
            Forall (fun u => NoDup (UserProfile.marked_lines u))
                   (user_profile (fst (handle match_answer QA_KNOWLEDGE_BASE session req st)))).
  { intros session req st Hno H.
    destruct (get_or_create_user session st) as [st1 u] eqn:E.
    pose proof (Hgoc _ _ _ _ E H) as H1.
    destruct (get_or_create_user_spec _ _ _ _ E) as (Hin & _).
    assert (Hu : NoDup (UserProfile.marked_lines u)).
    { rewrite Forall_forall in H1. exact (H1 u Hin). }
    assert (Hkeep : forall u', NoDup (UserProfile.marked_lines u') ->
              Forall (fun u => NoDup (UserProfile.marked_lines u))
                     (update_user u' (user_profile st1))).
    { intros u' Hu'. rewrite Forall_forall in H1. apply update_user_Forall; auto. }
    destruct req as [data| |data|data|data|]; cbn [handle].
    - unfold chat. destruct data as [[[q|]]|]; cbn [Requests.question fst]; trivial.
      destruct (match_answer q) as [ans tp]. rewrite E. cbn [fst user_profile].
      apply Hkeep. exact Hu.
    - unfold get_profile. rewrite E. exact H1.
    - unfold update_profile. destruct data as [d|]; trivial.
      destruct (profile_data_falsy (Some d)); trivial. rewrite E.
      destruct (profile_data_storable d); cbn [fst user_profile]; [|exact H1].
      apply Hkeep. cbn [UserProfile.marked_lines].
      cbn [overwrites_marks] in Hno.
      destruct (Requests.marked_lines d); [exfalso; apply Hno; discriminate|exact Hu].
    - unfold save_mark. destruct data as [d|]; trivial.
      destruct (Requests.line d) as [ln|]; trivial. rewrite E. cbn [fst user_profile].
      apply Hkeep. cbn [UserProfile.marked_lines].
      destruct (int_in_list ln (UserProfile.marked_lines u)) eqn:Ei; [exact Hu|].
      cbn [negb]. apply NoDup_snoc; [exact Hu|]. intros Hc.
      apply int_in_list_In in Hc. congruence.
    - unfold analyze. rewrite E.
      destruct (calculate_skill_scores _ _) as [scores|e]; [|exact H1].
      destruct (generate_recommendations_default scores); cbn [fst user_profile];
        apply Hkeep; exact Hu.
    - exact H. }
  intros Htrace.
  assert (H0 : Forall (fun u => NoDup (UserProfile.marked_lines u)) (user_profile empty_db))
    by constructor.
  revert H0. generalize empty_db.
  induction Htrace as [|[s r] trace Hr _ IH]; intros st Hst; [exact Hst|].
  cbn [run fold_left fst snd]. apply IH. apply Hstep; assumption.
Qed.

(** X18. A non-empty [POST /api/profile] whose integers fit the 64-bit
    columns answers success, and [GET /api/profile] of the same session
    then shows the fields that were sent and every other field, among
    them the questions and the stored scores, as before.  When a sent
    [total_steps_viewed] or [completed_runs] does not fit, the commit
    raises [OverflowError] and [GET /api/profile] shows the profile
    without any of the sent values. *)
Theorem update_profile_then_get (session : option string) (d : Requests.profile_data)
    (st : db) :
  profile_data_falsy (Some d) = false ->
  let user := snd (get_or_create_user session st) in
  (profile_data_storable d = true ->
   snd (update_profile session (Some d) st) = Ok JsonSuccess /\
   snd (get_profile session (fst (update_profile session (Some d) st)))
   = Ok (JsonProfile
           {| UserProfile.id := UserProfile.id user;
              UserProfile.session_id := UserProfile.session_id user;
              UserProfile.total_steps_viewed :=
                get (Requests.total_steps_viewed d) (UserProfile.total_steps_viewed user);
              UserProfile.marked_lines :=
                get (Requests.marked_lines d) (UserProfile.marked_lines user);
              UserProfile.questions_asked := UserProfile.questions_asked user;
              UserProfile.question_topics := UserProfile.question_topics user;
              UserProfile.completed_runs :=
                get (Requests.completed_runs d) (UserProfile.completed_runs user);
              UserProfile.skill_scores := UserProfile.skill_scores user |})) /\
  (profile_data_storable d = false ->
   snd (update_profile session (Some d) st) = Err OverflowError /\
   snd (get_profile session (fst (update_profile session (Some d) st)))
   = Ok (JsonProfile user)).
Proof.
  intros Hd. unfold update_profile. rewrite Hd.
  destruct (get_or_create_user session st) as [st1 u] eqn:E.
  destruct (get_or_create_user_spec _ _ _ _ E) as (_ & Hs & Hf & _).
  cbn [snd]. cbv zeta. split; intros Hfit; rewrite Hfit; cbn [fst snd].
  - split; [reflexivity|].
    erewrite get_profile_found; [reflexivity|].
    cbn [user_profile].
    apply (find_user_update_self _ u); [exact Hf|reflexivity|exact Hs].
  - split; [reflexivity|].
    rewrite (get_profile_found _ _ _ Hf). reflexivity.
Qed.

(** X19. [POST /api/analyze] either answers with scores for the five
    topics and five recommendations, and then [GET /api/profile] shows
    exactly these scores stored, or fails with [OverflowError] on a
    [total_steps_viewed] of [2^1000] or more, and then the stored profile
    is untouched. *)
Theorem analyze_then_get (session : option string)
    (data : option Requests.analyze_data) (st : db) :
  let user := snd (get_or_create_user session st) in
  match snd (analyze session data st) with
  | Ok (JsonAnalyze skill_scores recommendations) =>
      dict_keys skill_scores = topic_names /\
      List.length recommendations = 5%nat /\
      snd (get_profile session (fst (analyze session data st)))
      = Ok (JsonProfile
              {| UserProfile.id := UserProfile.id user;
                 UserProfile.session_id := UserProfile.session_id user;
                 UserProfile.total_steps_viewed := UserProfile.total_steps_viewed user;
                 UserProfile.marked_lines := UserProfile.marked_lines user;
                 UserProfile.questions_asked := UserProfile.questions_asked user;
                 UserProfile.question_topics := UserProfile.question_topics user;
                 UserProfile.completed_runs := UserProfile.completed_runs user;
                 UserProfile.skill_scores := skill_scores |})
  | Ok _ => False
  | Err e =>
      e = OverflowError /\
      2 ^ 1000 <= Z.abs (UserProfile.total_steps_viewed user) /\
      snd (get_profile session (fst (analyze session data st))) = Ok (JsonProfile user)
  end.
Proof.
  unfold analyze.
  destruct (get_or_create_user session st) as [st1 u] eqn:E.
  destruct (get_or_create_user_spec _ _ _ _ E) as (_ & Hs & Hf & _).
  cbn [snd]. cbv zeta.
  destruct (calculate_skill_scores (profile_dict u) _) as [scores|e] eqn:Es.
  - destruct (recommendations_of_scores _ _ _ Es) as (recs & -> & Hlen).
    cbn [fst snd]. split; [|split; [exact Hlen|]].
    + apply calculate_skill_scores_inv in Es as (sb & _ & ->). reflexivity.
    + erewrite get_profile_found; [reflexivity|]. cbn [user_profile].
      apply (find_user_update_self _ u); [exact Hf|reflexivity|exact Hs].
  - cbn [fst snd].
    destruct (only_overflow_bound _ _ _ Es) as (-> & Hb).
    split; [reflexivity|]. split; [exact Hb|].
    rewrite (get_profile_found _ _ _ Hf). reflexivity.
Qed.


End RouteFacts.

Lemma sessions_are_isolated_witness :
  session_id_of (Some "a1b2c3d4"%string) <> "anonymous"%string /\
  find_user "anonymous"
    (user_profile
       (fst (handle sample_matcher sample_kb (Some "a1b2c3d4"%string)
               (POST_mark (Some {| Requests.line := Some 12;
                                   Requests.knowledge := None;
                                   Requests.note := None |}))
               (run sample_matcher sample_kb
                  [(None, POST_mark (Some {| Requests.line := Some 3;
                                             Requests.knowledge := None;
                                             Requests.note := None |}))]
                  empty_db))))
  = Some {| UserProfile.id := 1; UserProfile.session_id := "anonymous";
            UserProfile.total_steps_viewed := 0;
            UserProfile.marked_lines := [3];
            UserProfile.questions_asked := 0;
            UserProfile.question_topics := [];
            UserProfile.completed_runs := 0;
            UserProfile.skill_scores := [] |}.
Proof.
  split; [discriminate|].
  rewrite (sessions_are_isolated sample_matcher sample_kb
             [(None, POST_mark (Some {| Requests.line := Some 3;
                                        Requests.knowledge := None;
                                        Requests.note := None |}))]
             (Some "a1b2c3d4"%string) _ "anonymous"%string); [reflexivity|discriminate].
Defined.

Lemma save_mark_adds_line_once_witness :
  exists u',
    snd (save_mark None (Some {| Requests.line := Some 12;
                                 Requests.knowledge := Some "基准选择"%string;
                                 Requests.note := None |}) empty_db)
    = Ok JsonSuccess /\
    In 12 (UserProfile.marked_lines u').
Proof.
  destruct (save_mark_adds_line_once None
              {| Requests.line := Some 12;
                 Requests.knowledge := Some "基准选择"%string;
                 Requests.note := None |} 12 empty_db eq_refl)
    as (u' & Hr & _ & _ & Hin & _).
  exists u'. split; [exact Hr|exact Hin].
Defined.

Lemma marks_stay_distinct_witness :
  Forall (fun u => NoDup (UserProfile.marked_lines u))
    (user_profile
       (run sample_matcher sample_kb
          [(None, POST_mark (Some {| Requests.line := Some 12;
                                     Requests.knowledge := None;
                                     Requests.note := None |}));
           (None, POST_profile (Some {| Requests.total_steps_viewed := Some 30;
                                        Requests.marked_lines := None;
                                        Requests.completed_runs := None;
                                        Requests.other_keys := [] |}));
           (None, POST_mark (Some {| Requests.line := Some 12;
                                     Requests.knowledge := None;
                                     Requests.note := None |}))]
          empty_db)).
Proof.
  apply (marks_stay_distinct sample_matcher sample_kb).
  repeat constructor; cbn; auto.
Defined.

Lemma update_profile_then_get_witness :
  (snd (update_profile (Some "a1b2c3d4"%string)
          (Some {| Requests.total_steps_viewed := Some 50;
                   Requests.marked_lines := Some [3; 12; 17];
                   Requests.completed_runs := Some 2;
                   Requests.other_keys := [] |}) empty_db)
   = Ok JsonSuccess /\
   snd (get_profile (Some "a1b2c3d4"%string)
          (fst (update_profile (Some "a1b2c3d4"%string)
                  (Some {| Requests.total_steps_viewed := Some 50;
                           Requests.marked_lines := Some [3; 12; 17];
                           Requests.completed_runs := Some 2;
                           Requests.other_keys := [] |}) empty_db)))
   = Ok (JsonProfile
           {| UserProfile.id := 1; UserProfile.session_id := "a1b2c3d4";
              UserProfile.total_steps_viewed := 50;
              UserProfile.marked_lines := [3; 12; 17];
              UserProfile.questions_asked := 0;
              UserProfile.question_topics := [];
              UserProfile.completed_runs := 2;
              UserProfile.skill_scores := [] |})) /\
  (snd (update_profile (Some "a1b2c3d4"%string)
          (Some {| Requests.total_steps_viewed := Some (2 ^ 63);
                   Requests.marked_lines := Some [3];
                   Requests.completed_runs := None;
                   Requests.other_keys := [] |}) empty_db)
   = Err OverflowError /\
   snd (get_profile (Some "a1b2c3d4"%string)
          (fst (update_profile (Some "a1b2c3d4"%string)
                  (Some {| Requests.total_steps_viewed := Some (2 ^ 63);
                           Requests.marked_lines := Some [3];
                           Requests.completed_runs := None;
                           Requests.other_keys := [] |}) empty_db)))
   = Ok (JsonProfile (new_user 1 "a1b2c3d4"))).
Proof.
  split.
  - apply (proj1 (update_profile_then_get (Some "a1b2c3d4"%string)
                    {| Requests.total_steps_viewed := Some 50;
                       Requests.marked_lines := Some [3; 12; 17];
                       Requests.completed_runs := Some 2;
                       Requests.other_keys := [] |} empty_db eq_refl)).
    reflexivity.
  - apply (proj2 (update_profile_then_get (Some "a1b2c3d4"%string)
                    {| Requests.total_steps_viewed := Some (2 ^ 63);
                       Requests.marked_lines := Some [3];
                       Requests.completed_runs := None;
                       Requests.other_keys := [] |} empty_db eq_refl)).
    reflexivity.
Defined.

